(** * DocuLearn backend gateway: token verification and session trust

    A shallow embedding of [app/core/security.py], [app/api/deps.py],
    [app/api/routes/auth.py], [app/api/routes/generation.py] and
    [app/api/routes/rag.py].  Python values that come out of JSON are kept
    as JSON values, exceptions are values of [exn], module globals and the
    user table live in a [World] that every operation threads, and the
    libraries the code calls (python-jose, requests, httpx, the clock, uuid4)
    are fields of an [Env] record so that nothing about them is assumed. *)

From Stdlib Require Import ZArith String Ascii List Bool Lia DecimalString.
Import ListNotations.
Local Open Scope string_scope.
Local Open Scope Z_scope.
Set Warnings "-register-all".

(** ** Python values *)

Inductive json : Type :=
| JNull
| JBool (b : bool)
| JNum (n : Z)
| JStr (s : string)
| JList (items : list json)
| JDict (entries : list (string * json)).

(** A Python [dict] with string keys, in insertion order. *)
Definition dict := list (string * json).

Fixpoint dict_lookup (d : dict) (k : string) : option json :=
  match d with
  | [] => None
  | (k', v) :: d' => if String.eqb k' k then Some v else dict_lookup d' k
  end.

(** [d.get(k)]: [None] (JSON null) when the key is absent. *)
Definition dict_get (d : dict) (k : string) : json :=
  match dict_lookup d k with Some v => v | None => JNull end.

(** [d.get(k, default)]. *)
Definition dict_get_default (d : dict) (k : string) (dflt : json) : json :=
  match dict_lookup d k with Some v => v | None => dflt end.

Definition dict_mem (d : dict) (k : string) : bool :=
  match dict_lookup d k with Some _ => true | None => false end.

(** [d[k] = v]: the entry is overwritten where it stands, or appended. *)
Definition dict_set (d : dict) (k : string) (v : json) : dict :=
  if dict_mem d k
  then map (fun kv => if String.eqb (fst kv) k then (k, v) else kv) d
  else (d ++ [(k, v)])%list.

(** Truth value of an object, as the [if x] / [not x] tests use it. *)
Definition truthy (v : json) : bool :=
  match v with
  | JNull => false
  | JBool b => b
  | JNum n => negb (n =? 0)
  | JStr s => negb (String.eqb s "")
  | JList l => match l with [] => false | _ => true end
  | JDict d => match d with [] => false | _ => true end
  end.

Definition dict_truthy (d : dict) : bool := truthy (JDict d).

(** Python [==] on JSON values: booleans compare as the integers 0 and 1,
    lists element-wise, dicts entry by entry whatever the order. *)
Fixpoint py_eq (a b : json) {struct a} : bool :=
  match a, b with
  | JNull, JNull => true
  | JBool x, JBool y => Bool.eqb x y
  | JBool x, JNum n => n =? (if x then 1 else 0)
  | JNum n, JBool x => n =? (if x then 1 else 0)
  | JNum n, JNum m => n =? m
  | JStr s, JStr t => String.eqb s t
  | JList l, JList m =>
      (fix elems (l m : list json) {struct l} : bool :=
         match l, m with
         | [], [] => true
         | x :: l', y :: m' => py_eq x y && elems l' m'
         | _, _ => false
         end) l m
  | JDict d, JDict e =>
      Nat.eqb (List.length d) (List.length e) &&
      (fix entries (d : list (string * json)) {struct d} : bool :=
         match d with
         | [] => true
         | (k, v) :: d' =>
             match dict_lookup e k with
             | Some w => py_eq v w
             | None => false
             end && entries d'
         end) d
  | _, _ => false
  end.

(** ** Exceptions *)

Inductive exn : Type :=
| HTTPException (status_code : Z) (detail : string)
                (headers : option (list (string * string)))
| JWTError (msg : string)
| HTTPStatusError (status_code : Z) (text : string)
| IntegrityError (constraint : string)
| PyError (cls : string) (msg : string).

(** ** Configuration ([app/core/config.py]) *)

Record Settings : Type := {
  DATABASE_URL : string;
  COGNITO_REGION : string;
  COGNITO_USER_POOL_ID : string;
  COGNITO_CLIENT_ID : string;
  COGNITO_CLIENT_SECRET : string;
  COGNITO_DOMAIN : string;
  REDIRECT_URI : string;
  GENERATION_SERVICE_URL : string;
  RAG_SERVICE_URL : string;
  ALGORITHM : string;
  COOKIE_NAME : string;
  COOKIE_SECURE : bool;
  COOKIE_HTTPONLY : bool;
  COOKIE_SAMESITE : string;
  FRONTEND_URL : string
}.

(** ** The user table ([app/models/user.py], alembic revision 001) *)

Definition uuid := string.

Record User : Type := {
  id : uuid;
  email : json;
  cognito_sub : json;
  full_name : json;
  created_at : Z
}.

(** ** What the libraries and the outside world answer *)

Record decode_options : Type := {
  verify_signature : bool;
  verify_exp : bool;
  verify_aud : bool;
  verify_iss : bool
}.

(** python-jose.  [jwt_get_unverified_claims] is not called by the gateway;
    it is the library's reading of a token's payload and is only used to say
    what a token carries.  [jwt_non_string_token] is what
    [jwt.get_unverified_header] raises when it is handed a value that is no
    string. *)
Record Jose : Type := {
  jwt_get_unverified_header : string -> exn + dict;
  jwt_get_unverified_claims : string -> exn + dict;
  jwt_decode :
    string -> json -> list string -> string -> string -> decode_options ->
    exn + dict;
  jwt_non_string_token : json -> exn
}.

Record Env : Type := {
  settings : Settings;
  jose : Jose;
  (** [str(e)] of an HTTPException, as the installed Starlette defines it *)
  str_HTTPException : Z -> string -> string;
  (** [datetime.utcnow()], in microseconds *)
  utcnow : Z;
  (** [requests.get(url, timeout=10)], [raise_for_status()], [.json()];
      the answer is a JSON object, as the annotation [Dict] has it *)
  requests_get : string -> exn + dict;
  (** [requests.post(url, data=..., headers=..., timeout=10)], then the same *)
  requests_post : string -> list (string * string) -> exn + dict;
  (** [httpx.AsyncClient.post(url, json=...)], [raise_for_status()], [.json()] *)
  httpx_post_json : string -> json -> exn + json;
  (** [uuid.uuid4()] *)
  uuid4 : uuid;
  (** rows other requests commit between this request's SELECT and its
      INSERT; the identity when requests run one after the other *)
  concurrent_commits : list User -> list User
}.

Definition str_exn (E : Env) (e : exn) : string :=
  match e with
  | HTTPException s d _ => str_HTTPException E s d
  | JWTError m => m
  | HTTPStatusError _ m => m
  | IntegrityError c => c
  | PyError _ m => m
  end.

(** ** The world the gateway runs in *)

Inductive event : Type :=
| EvJwksFetch (url : string)
| EvVerify (token : string)
| EvTokenExchange (url : string)
| EvDbQuery (sub : json)
| EvDbInsert (u : User)
| EvForward (url : string) (payload : json)
| EvVerifyValue (token : json).

Record World : Type := {
  _jwks_cache : option dict;
  _jwks_cache_time : option Z;
  users : list User;
  trace : list event
}.

Definition log (ev : event) (w : World) : World :=
  {| _jwks_cache := _jwks_cache w;
     _jwks_cache_time := _jwks_cache_time w;
     users := users w;
     trace := (trace w ++ [ev])%list |}.

Definition set_cache (c : dict) (t : Z) (w : World) : World :=
  {| _jwks_cache := Some c;
     _jwks_cache_time := Some t;
     users := users w;
     trace := trace w |}.

Definition set_users (us : list User) (w : World) : World :=
  {| _jwks_cache := _jwks_cache w;
     _jwks_cache_time := _jwks_cache_time w;
     users := us;
     trace := trace w |}.

(** A computation either raises or returns, and leaves a world behind in
    both cases. *)
Definition M (A : Type) : Type := World -> (exn + A) * World.

Definition ret {A} (a : A) : M A := fun w => (inr a, w).

Definition raise {A} (e : exn) : M A := fun w => (inl e, w).

Definition bind {A B} (m : M A) (k : A -> M B) : M B :=
  fun w =>
    match m w with
    | (inr a, w') => k a w'
    | (inl e, w') => (inl e, w')
    end.

(** [try: m  except ...: h e] *)
Definition try_except {A} (m : M A) (h : exn -> M A) : M A :=
  fun w =>
    match m w with
    | (inr a, w') => (inr a, w')
    | (inl e, w') => h e w'
    end.

Definition emit (ev : event) : M unit := fun w => (inr tt, log ev w).

Definition lift {A} (r : exn + A) : M A := fun w => (r, w).

Notation "x <- m ;; k" := (bind m (fun x => k))
  (at level 61, m at next level, right associativity).
Notation "m ;;; k" := (bind m (fun _ => k))
  (at level 61, right associativity).

(** ** [app/core/security.py] *)

(** [_CACHE_DURATION = timedelta(hours=1)], in microseconds. *)
Definition _CACHE_DURATION : Z := 3600 * 1000000.

Definition jwks_url (S : Settings) : string :=
  "https://cognito-idp." ++ COGNITO_REGION S ++ ".amazonaws.com/" ++
  COGNITO_USER_POOL_ID S ++ "/.well-known/jwks.json".

(** [_jwks_cache and _jwks_cache_time and (now - _jwks_cache_time) < _CACHE_DURATION] *)
Definition cache_still_valid (w : World) (now : Z) : bool :=
  match _jwks_cache w with
  | None => false
  | Some c =>
      dict_truthy c &&
      match _jwks_cache_time w with
      | None => false
      | Some t => now - t <? _CACHE_DURATION
      end
  end.

Definition get_jwks_keys (E : Env) : M dict :=
  fun w =>
    let now := utcnow E in
    match (if cache_still_valid w now then _jwks_cache w else None) with
    | Some c => (inr c, w)
    | None =>
        let url := jwks_url (settings E) in
        let w1 := log (EvJwksFetch url) w in
        match requests_get E url with
        | inr body => (inr body, set_cache body now w1)
        | inl e =>
            (inl (HTTPException 500
                    ("Failed to fetch JWKS keys: " ++ str_exn E e) None),
             w1)
        end
    end.

Definition type_name (v : json) : string :=
  match v with
  | JNull => "NoneType"
  | JBool _ => "bool"
  | JNum _ => "int"
  | JStr _ => "str"
  | JList _ => "list"
  | JDict _ => "dict"
  end.

Definition no_attribute (v : json) (attr : string) : exn :=
  PyError "AttributeError"
    ("'" ++ type_name v ++ "' object has no attribute '" ++ attr ++ "'").

Definition not_iterable (v : json) : exn :=
  PyError "TypeError" ("'" ++ type_name v ++ "' object is not iterable").

(** The loop body over a list of keys:
    [if jwk.get("kid") == kid: key = jwk; break].  [key] starts as [None]. *)
Fixpoint find_key_in (keys : list json) (kid : json) : exn + json :=
  match keys with
  | [] => inr JNull
  | jwk :: rest =>
      match jwk with
      | JDict d =>
          if py_eq (dict_get d "kid") kid then inr jwk
          else find_key_in rest kid
      | _ => inl (no_attribute jwk "get")
      end
  end.

(** [for jwk in jwks.get("keys", [])]: a list yields its items, a dict its
    keys and a string its characters (both strings, which have no [get]);
    the other values cannot be iterated. *)
Definition find_key (keys : json) (kid : json) : exn + json :=
  match keys with
  | JList l => find_key_in l kid
  | JDict [] => inr JNull
  | JDict (_ :: _) => inl (no_attribute (JStr "") "get")
  | JStr s => if String.eqb s "" then inr JNull
              else inl (no_attribute (JStr "") "get")
  | _ => inl (not_iterable keys)
  end.

Definition cognito_issuer (S : Settings) : string :=
  "https://cognito-idp." ++ COGNITO_REGION S ++ ".amazonaws.com/" ++
  COGNITO_USER_POOL_ID S.

Definition verify_token (E : Env) (token : string) : M dict :=
  try_except
    (emit (EvVerify token) ;;;
     jwks <- get_jwks_keys E ;;
     unverified_header <- lift (jwt_get_unverified_header (jose E) token) ;;
     let kid := dict_get unverified_header "kid" in
     if negb (truthy kid) then
       raise (HTTPException 401 "Token header missing 'kid' field" None)
     else
       key <- lift (find_key (dict_get_default jwks "keys" (JList [])) kid) ;;
       if negb (truthy key) then
         raise (HTTPException 401 "Unable to find matching key for token" None)
       else
         let issuer := cognito_issuer (settings E) in
         payload <- lift (jwt_decode (jose E) token key
                            [ALGORITHM (settings E)]
                            (COGNITO_CLIENT_ID (settings E))
                            issuer
                            {| verify_signature := true;
                               verify_exp := true;
                               verify_aud := true;
                               verify_iss := true |}) ;;
         ret payload)
    (fun e =>
       match e with
       | JWTError m =>
           raise (HTTPException 401 ("Invalid token: " ++ m) None)
       | _ =>
           raise (HTTPException 401
                    ("Token verification failed: " ++ str_exn E e) None)
       end).

Definition decode_id_token (E : Env) (id_token : string) : M dict :=
  try_except
    (emit (EvVerify id_token) ;;;
     jwks <- get_jwks_keys E ;;
     unverified_header <- lift (jwt_get_unverified_header (jose E) id_token) ;;
     let kid := dict_get unverified_header "kid" in
     if negb (truthy kid) then
       raise (HTTPException 401 "ID token header missing 'kid' field" None)
     else
       key <- lift (find_key (dict_get_default jwks "keys" (JList [])) kid) ;;
       if negb (truthy key) then
         raise (HTTPException 401
                  "Unable to find matching key for ID token" None)
       else
         let issuer := cognito_issuer (settings E) in
         payload <- lift (jwt_decode (jose E) id_token key
                            [ALGORITHM (settings E)]
                            (COGNITO_CLIENT_ID (settings E))
                            issuer
                            {| verify_signature := true;
                               verify_exp := true;
                               verify_aud := true;
                               verify_iss := true |}) ;;
         ret payload)
    (fun e =>
       match e with
       | JWTError m =>
           raise (HTTPException 401 ("Invalid ID token: " ++ m) None)
       | _ => raise e
       end).

(** ** [app/api/deps.py] *)

Record Request : Type := {
  cookies : list (string * string);
  (** [await request.json()] *)
  request_json : exn + json
}.

Fixpoint cookies_get (cs : list (string * string)) (name : string)
  : option string :=
  match cs with
  | [] => None
  | (k, v) :: cs' => if String.eqb k name then Some v else cookies_get cs' name
  end.

Definition bearer : option (list (string * string)) :=
  Some [("WWW-Authenticate", "Bearer")].

(** [db.query(User).filter(User.cognito_sub == cognito_sub).first()] *)
Definition first_by_sub (us : list User) (sub : json) : option User :=
  find (fun u => py_eq (cognito_sub u) sub) us.

Definition query_user_by_sub (sub : json) : M (option User) :=
  fun w => (inr (first_by_sub (users w) sub), log (EvDbQuery sub) w).

Definition get_current_user (E : Env) (request : Request) : M User :=
  let token := cookies_get (cookies request) (COOKIE_NAME (settings E)) in
  match token with
  | None | Some "" =>
      raise (HTTPException 401
               "Not authenticated. Missing access token cookie." bearer)
  | Some token =>
      payload <-
        try_except (verify_token E token)
          (fun e =>
             match e with
             | HTTPException _ _ _ => raise e
             | _ =>
                 raise (HTTPException 401
                          ("Could not validate credentials: " ++ str_exn E e)
                          bearer)
             end) ;;
      let cognito_sub := dict_get payload "sub" in
      if negb (truthy cognito_sub) then
        raise (HTTPException 401 "Token payload missing 'sub' claim" bearer)
      else
        user <- query_user_by_sub cognito_sub ;;
        match user with
        | None => raise (HTTPException 401 "User not found in database" bearer)
        | Some u => ret u
        end
  end.

Definition get_optional_user (E : Env) (request : Request) : M (option User) :=
  try_except (u <- get_current_user E request ;; ret (Some u))
    (fun e =>
       match e with
       | HTTPException _ _ _ => ret None
       | _ => raise e
       end).

(** ** [app/api/routes/auth.py] *)

Record Cookie : Type := {
  cookie_key : string;
  cookie_value : json;
  cookie_httponly : bool;
  cookie_secure : bool;
  cookie_samesite : string;
  cookie_max_age : Z
}.

Record RedirectResponse : Type := {
  redirect_url : string;
  redirect_status : Z;
  redirect_cookie : option Cookie
}.

(** [s.split("@")[0]]: what stands before the first separator. *)
Fixpoint split_head (sep : ascii) (s : string) : string :=
  match s with
  | EmptyString => EmptyString
  | String c s' =>
      if Ascii.eqb c sep then EmptyString else String c (split_head sep s')
  end.

(** [email.split("@")[0]] on whatever [user_info.get("email")] gave. *)
Definition email_username (email : json) : exn + json :=
  match email with
  | JStr s => inr (JStr (split_head "@"%char s))
  | _ => inl (no_attribute email "split")
  end.

(** The unique indexes of revision 001 and the primary key. *)
Definition violated_constraint (us : list User) (u : User) : option string :=
  if existsb (fun v => String.eqb (id v) (id u)) us then Some "users_pkey"
  else if existsb (fun v => py_eq (email v) (email u)) us
       then Some "ix_users_email"
  else if existsb (fun v => py_eq (cognito_sub v) (cognito_sub u)) us
       then Some "ix_users_cognito_sub"
  else None.

(** [db.add(user); db.commit(); db.refresh(user)].  The INSERT meets the
    table as it stands when it runs, rows committed by other requests since
    this request's SELECT included. *)
Definition add_commit_refresh (E : Env) (u : User) : M User :=
  fun w =>
    let table := concurrent_commits E (users w) in
    match violated_constraint table u with
    | Some c => (inl (IntegrityError c), set_users table w)
    | None => (inr u, log (EvDbInsert u) (set_users (table ++ [u])%list w))
    end.

(** Step 4 of [callback]: JIT provisioning. *)
Definition callback_provision (E : Env) (cognito_sub email full_name : json)
  : M User :=
  user <- query_user_by_sub cognito_sub ;;
  match user with
  | Some u => ret u
  | None =>
      add_commit_refresh E
        {| id := uuid4 E;
           email := email;
           cognito_sub := cognito_sub;
           full_name := full_name;
           created_at := utcnow E |}
  end.

(** [decode_id_token(id_token)] on whatever [tokens.get("id_token")] gave.
    A value that is no string takes the same path: the key set is obtained
    first, then the library's header call raises on the value, and the
    [except JWTError] of [decode_id_token] applies to what it raised. *)
Definition decode_id_token_of (E : Env) (id_token : json) : M dict :=
  match id_token with
  | JStr t => decode_id_token E t
  | _ =>
      try_except
        (emit (EvVerifyValue id_token) ;;;
         _jwks <- get_jwks_keys E ;;
         raise (jwt_non_string_token (jose E) id_token))
        (fun e =>
           match e with
           | JWTError m =>
               raise (HTTPException 401 ("Invalid ID token: " ++ m) None)
           | _ => raise e
           end)
  end.

Definition token_url (S : Settings) : string :=
  "https://" ++ COGNITO_DOMAIN S ++ "/oauth2/token".

Definition token_data (S : Settings) (code : string)
  : list (string * string) :=
  [ ("grant_type", "authorization_code");
    ("client_id", COGNITO_CLIENT_ID S);
    ("client_secret", COGNITO_CLIENT_SECRET S);
    ("code", code);
    ("redirect_uri", REDIRECT_URI S) ].

Definition callback (E : Env) (code : string) : M RedirectResponse :=
  let S := settings E in
  tokens <-
    try_except
      (emit (EvTokenExchange (token_url S)) ;;;
       lift (requests_post E (token_url S) (token_data S code)))
      (fun e =>
         raise (HTTPException 400
                  ("Failed to exchange code for tokens: " ++ str_exn E e)
                  None)) ;;
  let access_token := dict_get tokens "access_token" in
  let id_token := dict_get tokens "id_token" in
  if negb (truthy access_token) || negb (truthy id_token) then
    raise (HTTPException 400 "Missing tokens in response" None)
  else
    info <-
      try_except
        (user_info <- decode_id_token_of E id_token ;;
         let cognito_sub := dict_get user_info "sub" in
         let email := dict_get user_info "email" in
         username <- lift (email_username email) ;;
         let full_name := dict_get_default user_info "name" username in
         if negb (truthy cognito_sub) || negb (truthy email) then
           raise (HTTPException 400
                    "Missing required user information in ID token" None)
         else ret (cognito_sub, email, full_name))
        (fun e =>
           raise (HTTPException 400
                    ("Failed to decode ID token: " ++ str_exn E e) None)) ;;
    let '(cognito_sub, email, full_name) := info in
    _user <- callback_provision E cognito_sub email full_name ;;
    ret {| redirect_url := FRONTEND_URL S ++ "/dashboard";
           redirect_status := 302;
           redirect_cookie :=
             Some {| cookie_key := COOKIE_NAME S;
                     cookie_value := access_token;
                     cookie_httponly := COOKIE_HTTPONLY S;
                     cookie_secure := COOKIE_SECURE S;
                     cookie_samesite := COOKIE_SAMESITE S;
                     cookie_max_age := 3600 |} |}.

(** ** [app/api/routes/generation.py] and [app/api/routes/rag.py] *)

(** [body[k] = v] on whatever [request.json()] gave. *)
Definition setitem (body : json) (k : string) (v : json) : exn + json :=
  match body with
  | JDict d => inr (JDict (dict_set d k v))
  | JList _ =>
      inl (PyError "TypeError"
             "list indices must be integers or slices, not str")
  | _ =>
      inl (PyError "TypeError"
             ("'" ++ type_name body ++
              "' object does not support item assignment"))
  end.

(** [str(current_user.id)] *)
Definition str_uuid (u : uuid) : string := u.

(** The [try: async with httpx.AsyncClient(...)] block of a JSON proxy
    route, with the two messages the route uses. *)
Definition post_and_relay (E : Env) (service_url : string) (body : json)
    (status_prefix unreachable_prefix : string) : M json :=
  try_except
    (emit (EvForward service_url body) ;;;
     lift (httpx_post_json E service_url body))
    (fun e =>
       match e with
       | HTTPStatusError s text =>
           raise (HTTPException s (status_prefix ++ text) None)
       | _ =>
           raise (HTTPException 503 (unreachable_prefix ++ str_exn E e) None)
       end).

Definition request_body_or_empty (request : Request) : json :=
  match request_json request with
  | inr b => b
  | inl _ => JDict []
  end.

Definition create_plan (E : Env) (request : Request) (current_user : User)
  : M json :=
  let body := request_body_or_empty request in
  body <- lift (setitem body "user_id" (JStr (str_uuid (id current_user)))) ;;
  post_and_relay E (GENERATION_SERVICE_URL (settings E) ++ "/create_plan") body
    "Generation service error: "
    "Failed to communicate with generation service: ".

Definition chat (E : Env) (request : Request) (current_user : User)
  : M json :=
  let body := request_body_or_empty request in
  body <- lift (setitem body "user_id" (JStr (str_uuid (id current_user)))) ;;
  post_and_relay E (GENERATION_SERVICE_URL (settings E) ++ "/learn/generation")
    body
    "Generation service error: "
    "Failed to communicate with generation service: ".

Definition query_rag (E : Env) (request_data : dict) (current_user : User)
  : M json :=
  let request_data :=
    dict_set request_data "user_id" (JStr (str_uuid (id current_user))) in
  post_and_relay E (RAG_SERVICE_URL (settings E) ++ "/query")
    (JDict request_data)
    "RAG service error: "
    "Failed to communicate with RAG service: ".

(** [current_user: User = Depends(get_current_user)]: the dependency is
    resolved first and the handler runs only when it returned. *)
Definition create_plan_route (E : Env) (request : Request) : M json :=
  current_user <- get_current_user E request ;;
  create_plan E request current_user.

Definition chat_route (E : Env) (request : Request) : M json :=
  current_user <- get_current_user E request ;;
  chat E request current_user.

(** [auth_status] ([auth.py]): the cookie is looked up, never verified. *)
Definition auth_status (E : Env) (request : Request) : dict :=
  let token := cookies_get (cookies request) (COOKIE_NAME (settings E)) in
  [ ("authenticated",
     JBool (match token with Some _ => true | None => false end));
    ("cookie_name", JStr (COOKIE_NAME (settings E))) ].

(** An uploaded file: its name, what [await file.read()] gives, its type. *)
Record UploadFile : Type := {
  filename : option string;
  file_read : exn + string;
  content_type : option string
}.

Definition multipart_files : Type :=
  list (string * (option string * string * option string)).

(** The form fields of a multipart call, as they are recorded in the trace. *)
Definition form_fields (data : list (string * string)) : json :=
  JDict (map (fun kv => (fst kv, JStr (snd kv))) data).

(** [upload_file] ([rag.py]).  [httpx_post_multipart] is
    [client.post(url, files=files, data=data)], [raise_for_status()],
    [.json()]. *)
Definition upload_file (E : Env)
    (httpx_post_multipart :
       string -> multipart_files -> list (string * string) -> exn + json)
    (file : UploadFile) (metadata : option string) (current_user : User)
  : M json :=
  file_content <- lift (file_read file) ;;
  let service_url := RAG_SERVICE_URL (settings E) ++ "/upload-and-plan" in
  try_except
    (let files := [("file", (filename file, file_content, content_type file))] in
     let data := [("user_id", str_uuid (id current_user))] in
     let data :=
       match metadata with
       | Some m => if negb (String.eqb m "")
                   then (data ++ [("metadata", m)])%list else data
       | None => data
       end in
     emit (EvForward service_url (form_fields data)) ;;;
     lift (httpx_post_multipart service_url files data))
    (fun e =>
       match e with
       | HTTPStatusError s text =>
           raise (HTTPException s ("RAG service error: " ++ text) None)
       | _ =>
           raise (HTTPException 503
                    ("Failed to communicate with RAG service: " ++
                     str_exn E e) None)
       end).

(** ** The control flow of the two verification entry points *)

Definition all_checks : decode_options :=
  {| verify_signature := true;
     verify_exp := true;
     verify_aud := true;
     verify_iss := true |}.

(** The steps [verify_token] and [decode_id_token] have in common, up to
    the key lookup. *)
Inductive lookup_outcome : Type :=
| NoKeys (e : exn)
| BadHeader (e : exn)
| NoKid
| LookupRaised (e : exn)
| UnknownKid
| Found (key : json).

Definition key_lookup (E : Env) (token : string) (w : World)
  : lookup_outcome * World :=
  match get_jwks_keys E (log (EvVerify token) w) with
  | (inl e, w1) => (NoKeys e, w1)
  | (inr jwks, w1) =>
      match jwt_get_unverified_header (jose E) token with
      | inl e => (BadHeader e, w1)
      | inr hdr =>
          if negb (truthy (dict_get hdr "kid")) then (NoKid, w1)
          else
            match find_key (dict_get_default jwks "keys" (JList []))
                    (dict_get hdr "kid") with
            | inl e => (LookupRaised e, w1)
            | inr key => if negb (truthy key) then (UnknownKid, w1)
                         else (Found key, w1)
            end
      end
  end.

Definition handle_verify (E : Env) (e : exn) : exn :=
  match e with
  | JWTError m => HTTPException 401 ("Invalid token: " ++ m) None
  | _ => HTTPException 401 ("Token verification failed: " ++ str_exn E e) None
  end.

Definition handle_decode (e : exn) : exn :=
  match e with
  | JWTError m => HTTPException 401 ("Invalid ID token: " ++ m) None
  | _ => e
  end.

Definition decode_call (E : Env) (token : string) (key : json) : exn + dict :=
  jwt_decode (jose E) token key [ALGORITHM (settings E)]
    (COGNITO_CLIENT_ID (settings E)) (cognito_issuer (settings E)) all_checks.

(** The row [callback] builds for a subject it did not find. *)
Definition new_user (E : Env) (sub em name : json) : User :=
  {| id := uuid4 E;
     email := em;
     cognito_sub := sub;
     full_name := name;
     created_at := utcnow E |}.

(** ** What the gateway relies on from python-jose's [jwt.decode] *)





(** ** The steps of [callback] *)

(** The body of the [try] of step 3: the claims [callback] provisions with. *)
Definition id_token_claims (E : Env) (id_token : json)
  : M (json * json * json) :=
  user_info <- decode_id_token_of E id_token ;;
  let cognito_sub := dict_get user_info "sub" in
  let email := dict_get user_info "email" in
  username <- lift (email_username email) ;;
  let full_name := dict_get_default user_info "name" username in
  if negb (truthy cognito_sub) || negb (truthy email) then
    raise (HTTPException 400
             "Missing required user information in ID token" None)
  else ret (cognito_sub, email, full_name).

(** The response of steps 5 and 6: the redirect that sets the session
    cookie. *)
Definition session_response (E : Env) (access_token : json)
  : RedirectResponse :=
  {| redirect_url := FRONTEND_URL (settings E) ++ "/dashboard";
     redirect_status := 302;
     redirect_cookie :=
       Some {| cookie_key := COOKIE_NAME (settings E);
               cookie_value := access_token;
               cookie_httponly := COOKIE_HTTPONLY (settings E);
               cookie_secure := COOKIE_SECURE (settings E);
               cookie_samesite := COOKIE_SAMESITE (settings E);
               cookie_max_age := 3600 |} |}.

(** ** What a run leaves in the trace *)

Fixpoint count_inserts (evs : list event) : nat :=
  match evs with
  | [] => O
  | EvDbInsert _ :: evs' => S (count_inserts evs')
  | _ :: evs' => count_inserts evs'
  end.

(** The payload is a JSON object whose [user_id] is [uid] and nothing else. *)
Definition carries_user_id (uid : uuid) (payload : json) : Prop :=
  exists d, payload = JDict d /\
            dict_lookup d "user_id" = Some (JStr (str_uuid uid)) /\
            forall v, In ("user_id", v) d -> v = JStr (str_uuid uid).

(** Every forward recorded in [evs] carries [uid]. *)
Definition forwards_carry (uid : uuid) (evs : list event) : Prop :=
  forall url payload, In (EvForward url payload) evs ->
                      carries_user_id uid payload.

(** The key set and the time of its fetch are held together or not at all. *)
Definition cache_coherent (w : World) : bool :=
  match _jwks_cache w, _jwks_cache_time w with
  | Some _, Some _ => true
  | None, None => true
  | _, _ => false
  end.

(** Events that change nothing and send nothing downstream. *)
Definition is_read_event (ev : event) : bool :=
  match ev with
  | EvJwksFetch _ | EvVerify _ | EvVerifyValue _ | EvDbQuery _ => true
  | _ => false
  end.

Definition is_JWTError (e : exn) : bool :=
  match e with JWTError _ => true | _ => false end.


(** ** A concrete deployment, used to run the gateway on explicit inputs *)

Module Example.

Definition config : Settings :=
  {| DATABASE_URL := "postgresql://localhost/doculearn";
     COGNITO_REGION := "us-east-1";
     COGNITO_USER_POOL_ID := "us-east-1_pool";
     COGNITO_CLIENT_ID := "client-1";
     COGNITO_CLIENT_SECRET := "secret";
     COGNITO_DOMAIN := "auth.example.com";
     REDIRECT_URI := "http://localhost:8000/api/v1/auth/callback";
     GENERATION_SERVICE_URL := "http://generation:8001";
     RAG_SERVICE_URL := "http://rag:8002";
     ALGORITHM := "RS256";
     COOKIE_NAME := "access_token";
     COOKIE_SECURE := false;
     COOKIE_HTTPONLY := true;
     COOKIE_SAMESITE := "lax";
     FRONTEND_URL := "http://localhost:3000" |}.

(** The provider's key set: one RSA key, identifier [k1]. *)
Definition key_k1 : json :=
  JDict [("kid", JStr "k1"); ("kty", JStr "RSA"); ("alg", JStr "RS256")].

Definition jwks : dict := [("keys", JList [key_k1])].

(** Five tokens, named by what they carry:
    - [alice]: signed with [k1], subject [u-1], not expired;
    - [alice-k9]: the same claims, header names key [k9];
    - [nosub]: signed with [k1], no subject claim;
    - [late-k1]: signed with [k1], expired at second 1000;
    - [late-k9]: header names key [k9], expired at second 1000. *)
Definition header_of (token : string) : exn + dict :=
  if String.eqb token "alice" then inr [("alg", JStr "RS256"); ("kid", JStr "k1")]
  else if String.eqb token "alice-k9" then inr [("alg", JStr "RS256"); ("kid", JStr "k9")]
  else if String.eqb token "nosub" then inr [("alg", JStr "RS256"); ("kid", JStr "k1")]
  else if String.eqb token "late-k1" then inr [("alg", JStr "RS256"); ("kid", JStr "k1")]
  else if String.eqb token "late-k9" then inr [("alg", JStr "RS256"); ("kid", JStr "k9")]
  else inl (JWTError "Error decoding token headers.").

Definition claims_of (token : string) : exn + dict :=
  if String.eqb token "alice" then
    inr [("sub", JStr "u-1"); ("email", JStr "a@x.com"); ("exp", JNum 9000)]
  else if String.eqb token "alice-k9" then
    inr [("sub", JStr "u-1"); ("email", JStr "a@x.com"); ("exp", JNum 9000)]
  else if String.eqb token "nosub" then
    inr [("email", JStr "a@x.com"); ("exp", JNum 9000)]
  else if String.eqb token "late-k1" then
    inr [("sub", JStr "u-1"); ("email", JStr "a@x.com"); ("exp", JNum 1000)]
  else if String.eqb token "late-k9" then
    inr [("sub", JStr "u-1"); ("email", JStr "a@x.com"); ("exp", JNum 1000)]
  else inl (JWTError "Error decoding token claims.").

Definition decode_with (token : string) (key : json) (algorithms : list string)
    (audience issuer : string) (options : decode_options) : exn + dict :=
  if negb (py_eq key key_k1) then inl (JWTError "Signature verification failed.")
  else if String.eqb token "alice" then claims_of token
  else if String.eqb token "nosub" then claims_of token
  else if String.eqb token "late-k1" then inl (JWTError "Signature has expired.")
  else inl (JWTError "Signature verification failed.").

Definition library : Jose :=
  {| jwt_get_unverified_header := header_of;
     jwt_get_unverified_claims := claims_of;
     jwt_decode := decode_with;
     jwt_non_string_token := fun _ =>
       JWTError "Error decoding token headers." |}.

(** Second 5000 of the epoch; the provider answers with [jwks]. *)
Definition env : Env :=
  {| settings := config;
     jose := library;
     str_HTTPException := fun s d =>
       DecimalString.NilZero.string_of_int (Z.to_int s) ++ ": " ++ d;
     utcnow := 5000 * 1000000;
     requests_get := fun _ => inr jwks;
     requests_post := fun _ _ =>
       inr [("access_token", JStr "alice"); ("id_token", JStr "alice")];
     httpx_post_json := fun _ _ => inr (JDict [("ok", JBool true)]);
     uuid4 := "00000000-0000-4000-8000-000000000001";
     concurrent_commits := fun us => us |}.

(** The same deployment while the provider's key endpoint is down. *)
Definition env_provider_down : Env :=
  {| settings := config;
     jose := library;
     str_HTTPException := str_HTTPException env;
     utcnow := utcnow env;
     requests_get := fun _ => inl (PyError "ConnectionError" "connection refused");
     requests_post := requests_post env;
     httpx_post_json := httpx_post_json env;
     uuid4 := uuid4 env;
     concurrent_commits := concurrent_commits env |}.

Definition world (cache : option dict) (fetched_at : option Z)
    (us : list User) : World :=
  {| _jwks_cache := cache;
     _jwks_cache_time := fetched_at;
     users := us;
     trace := [] |}.

(** Keys fetched one minute ago. *)
Definition fresh : World := world (Some jwks) (Some (4940 * 1000000)) [].

(** Keys fetched at second 1000, more than an hour ago. *)
Definition stale : World := world (Some jwks) (Some (1000 * 1000000)) [].

(** The same deployment one minute earlier, with a provider that answers
    [{}] to the key request. *)
Definition env_empty_answer : Env :=
  {| settings := config;
     jose := library;
     str_HTTPException := str_HTTPException env;
     utcnow := 4940 * 1000000;
     requests_get := fun _ => inr [];
     requests_post := requests_post env;
     httpx_post_json := httpx_post_json env;
     uuid4 := uuid4 env;
     concurrent_commits := concurrent_commits env |}.

(** The provider answered [{}] one minute ago. *)
Definition fresh_but_empty : World := world (Some []) (Some (4940 * 1000000)) [].

Definition request_with_cookie (token : string) : Request :=
  {| cookies := [("access_token", token)]; request_json := inr (JDict []) |}.

(** The row a concurrent first login of subject [u-1] commits. *)
Definition alice_row : User :=
  {| id := "00000000-0000-4000-8000-000000000002";
     email := JStr "a@x.com";
     cognito_sub := JStr "u-1";
     full_name := JStr "a";
     created_at := 4999 * 1000000 |}.

(** The same deployment while that other login commits between this
    request's SELECT and its INSERT. *)
Definition env_racing : Env :=
  {| settings := config;
     jose := library;
     str_HTTPException := str_HTTPException env;
     utcnow := utcnow env;
     requests_get := requests_get env;
     requests_post := requests_post env;
     httpx_post_json := httpx_post_json env;
     uuid4 := uuid4 env;
     concurrent_commits := fun us => (us ++ [alice_row])%list |}.

(** Another account, subject [u-0], registered with the address [a@x.com]. *)
Definition bob_row : User :=
  {| id := "00000000-0000-4000-8000-000000000003";
     email := JStr "a@x.com";
     cognito_sub := JStr "u-0";
     full_name := JStr "bob";
     created_at := 4000 * 1000000 |}.

Definition with_bob : World :=
  world (Some jwks) (Some (4940 * 1000000)) [bob_row].

(** What the first login of subject [u-1] inserts under [env]. *)
Definition new_alice : User :=
  {| id := uuid4 env;
     email := JStr "a@x.com";
     cognito_sub := JStr "u-1";
     full_name := JStr "a";
     created_at := utcnow env |}.

(** Keys fetched exactly one hour before [env]'s clock. *)
Definition at_ttl : World := world (Some jwks) (Some (1400 * 1000000)) [].

(** Fresh keys and the row of subject [u-1] in the table. *)
Definition provisioned : World :=
  world (Some jwks) (Some (4940 * 1000000)) [alice_row].

(** [env] with another library and another answer of the token endpoint. *)
Definition env_with (J : Jose) (tokens : exn + dict) : Env :=
  {| settings := config;
     jose := J;
     str_HTTPException := str_HTTPException env;
     utcnow := utcnow env;
     requests_get := requests_get env;
     requests_post := fun _ _ => tokens;
     httpx_post_json := httpx_post_json env;
     uuid4 := uuid4 env;
     concurrent_commits := concurrent_commits env |}.

(** The token endpoint hands out the identity token [nosub]. *)
Definition env_nosub : Env :=
  env_with library
    (inr [("access_token", JStr "alice"); ("id_token", JStr "nosub")]).

(** A provider whose identity tokens carry a subject and nothing else. *)
Definition library_sub_only : Jose :=
  {| jwt_get_unverified_header := fun _ =>
       inr [("alg", JStr "RS256"); ("kid", JStr "k1")];
     jwt_get_unverified_claims := fun _ => inr [("sub", JStr "u-7")];
     jwt_decode := fun _ _ _ _ _ _ => inr [("sub", JStr "u-7")];
     jwt_non_string_token := fun _ =>
       JWTError "Error decoding token headers." |}.

Definition env_sub_only : Env :=
  env_with library_sub_only
    (inr [("access_token", JStr "alice"); ("id_token", JStr "alice")]).








(** The token endpoint hands out a number as identity token. *)
Definition env_numeric_id_token : Env :=
  env_with library
    (inr [("access_token", JStr "alice"); ("id_token", JNum 42)]).

End Example.

(** * Properties *)

(** ** The key-set cache *)

Ltac run := unfold bind, try_except, ret, raise, lift, emit; simpl.

Lemma cache_still_valid_intro w now c t :
  _jwks_cache w = Some c -> dict_truthy c = true ->
  _jwks_cache_time w = Some t -> now - t < _CACHE_DURATION ->
  cache_still_valid w now = true.
Proof.
  intros Hc Htr Ht Hlt. unfold cache_still_valid.
  rewrite Hc, Ht, Htr. simpl. now apply Z.ltb_lt.
Qed.

(** Whenever the cache test fails, the key endpoint is asked, and the
    outcome of the call is the outcome of [get_jwks_keys]. *)
Lemma get_jwks_keys_refresh E w :
  cache_still_valid w (utcnow E) = false ->
  get_jwks_keys E w =
    let url := jwks_url (settings E) in
    match requests_get E url with
    | inr body =>
        (inr body, set_cache body (utcnow E) (log (EvJwksFetch url) w))
    | inl e =>
        (inl (HTTPException 500
                ("Failed to fetch JWKS keys: " ++ str_exn E e) None),
         log (EvJwksFetch url) w)
    end.
Proof. intros H. unfold get_jwks_keys. rewrite H. reflexivity. Qed.

(** C1, as the code has it: once the cached key set is no longer served
    (none, empty, or as old as the time-to-live), a failing fetch makes
    [get_jwks_keys] fail with HTTP 500, whether or not an earlier key set
    is still held; the held key set and its timestamp stay as they were. *)
Theorem get_jwks_keys_fetch_failure_raises E w e :
  cache_still_valid w (utcnow E) = false ->
  requests_get E (jwks_url (settings E)) = inl e ->
  get_jwks_keys E w =
    (inl (HTTPException 500
            ("Failed to fetch JWKS keys: " ++ str_exn E e) None),
     log (EvJwksFetch (jwks_url (settings E))) w).
Proof.
  intros Hc Hf. rewrite (get_jwks_keys_refresh E w Hc). cbv zeta.
  rewrite Hf. reflexivity.
Qed.

Lemma get_jwks_keys_fetch_failure_raises_witness :
  get_jwks_keys Example.env_provider_down Example.stale =
    (inl (HTTPException 500
            "Failed to fetch JWKS keys: connection refused" None),
     log (EvJwksFetch (jwks_url Example.config)) Example.stale).
Proof.
  apply (get_jwks_keys_fetch_failure_raises Example.env_provider_down
           Example.stale (PyError "ConnectionError" "connection refused"));
    reflexivity.
Defined.

(** C1 as stated fails: with a key set cached more than an hour ago and the
    provider down, [get_jwks_keys] does not return the cached key set. *)
Lemma get_jwks_keys_no_stale_fallback :
  _jwks_cache Example.stale = Some Example.jwks /\
  (exists e, requests_get Example.env_provider_down
               (jwks_url (settings Example.env_provider_down)) = inl e) /\
  fst (get_jwks_keys Example.env_provider_down Example.stale) <>
    inr Example.jwks.
Proof.
  split; [reflexivity|]. split; [eexists; reflexivity|].
  vm_compute. discriminate.
Qed.

(** C8, as the code has it: a non-empty cached key set younger than one
    hour is returned as it is, without a fetch and without any change to
    the cache. *)
Theorem get_jwks_keys_serves_fresh_cache E w c t :
  _jwks_cache w = Some c ->
  c <> [] ->
  _jwks_cache_time w = Some t ->
  utcnow E - t < _CACHE_DURATION ->
  get_jwks_keys E w = (inr c, w).
Proof.
  intros Hc Hne Ht Hlt. unfold get_jwks_keys.
  rewrite (cache_still_valid_intro w (utcnow E) c t Hc); auto.
  - rewrite Hc. reflexivity.
  - destruct c; [contradiction | reflexivity].
Qed.

Lemma get_jwks_keys_serves_fresh_cache_witness :
  get_jwks_keys Example.env Example.fresh = (inr Example.jwks, Example.fresh).
Proof.
  apply (get_jwks_keys_serves_fresh_cache Example.env Example.fresh
           Example.jwks (4940 * 1000000)).
  - reflexivity.
  - discriminate.
  - reflexivity.
  - vm_compute. reflexivity.
Defined.

(** The state [Example.fresh_but_empty] is what a first call leaves when the
    provider answers [{}]. *)
Example get_jwks_keys_caches_empty_answer :
  let w := snd (get_jwks_keys Example.env_empty_answer
                  (Example.world None None [])) in
  _jwks_cache w = _jwks_cache Example.fresh_but_empty /\
  _jwks_cache_time w = _jwks_cache_time Example.fresh_but_empty.
Proof. split; reflexivity. Qed.

(** C8 as stated fails on an empty cached document: [{}] is false in the
    cache test, so a fetch is made and the cache is overwritten although
    the timestamp is one minute old. *)
Lemma get_jwks_keys_refetches_empty_cache :
  _jwks_cache Example.fresh_but_empty = Some [] /\
  _jwks_cache_time Example.fresh_but_empty = Some (4940 * 1000000) /\
  utcnow Example.env - 4940 * 1000000 < _CACHE_DURATION /\
  get_jwks_keys Example.env Example.fresh_but_empty =
    (inr Example.jwks,
     set_cache Example.jwks (utcnow Example.env)
       (log (EvJwksFetch (jwks_url Example.config)) Example.fresh_but_empty)).
Proof. repeat split. Qed.

(** ** The token verifier *)

Lemma verify_token_by_lookup E token w :
  verify_token E token w =
    match key_lookup E token w with
    | (NoKeys e, w1) | (BadHeader e, w1) | (LookupRaised e, w1) =>
        (inl (handle_verify E e), w1)
    | (NoKid, w1) =>
        (inl (handle_verify E
                (HTTPException 401 "Token header missing 'kid' field" None)),
         w1)
    | (UnknownKid, w1) =>
        (inl (handle_verify E
                (HTTPException 401 "Unable to find matching key for token"
                   None)),
         w1)
    | (Found key, w1) =>
        match decode_call E token key with
        | inr payload => (inr payload, w1)
        | inl e => (inl (handle_verify E e), w1)
        end
    end.
Proof.
  unfold verify_token, key_lookup, decode_call, all_checks. run.
  destruct (get_jwks_keys E (log (EvVerify token) w)) as [[e|jwks] w1];
    [destruct e; reflexivity|].
  destruct (jwt_get_unverified_header (jose E) token) as [e|hdr];
    [destruct e; reflexivity|].
  destruct (truthy (dict_get hdr "kid")); simpl; [|reflexivity].
  destruct (find_key _ _) as [e|key]; [destruct e; reflexivity|].
  destruct (truthy key); simpl; [|reflexivity].
  destruct (jwt_decode _ _ _ _ _ _ _) as [e|payload];
    [destruct e; reflexivity | reflexivity].
Qed.

Lemma decode_id_token_by_lookup E token w :
  decode_id_token E token w =
    match key_lookup E token w with
    | (NoKeys e, w1) | (BadHeader e, w1) | (LookupRaised e, w1) =>
        (inl (handle_decode e), w1)
    | (NoKid, w1) =>
        (inl (HTTPException 401 "ID token header missing 'kid' field" None),
         w1)
    | (UnknownKid, w1) =>
        (inl (HTTPException 401 "Unable to find matching key for ID token"
                None),
         w1)
    | (Found key, w1) =>
        match decode_call E token key with
        | inr payload => (inr payload, w1)
        | inl e => (inl (handle_decode e), w1)
        end
    end.
Proof.
  unfold decode_id_token, key_lookup, decode_call, all_checks. run.
  destruct (get_jwks_keys E (log (EvVerify token) w)) as [[e|jwks] w1];
    [destruct e; reflexivity|].
  destruct (jwt_get_unverified_header (jose E) token) as [e|hdr];
    [destruct e; reflexivity|].
  destruct (truthy (dict_get hdr "kid")); simpl; [|reflexivity].
  destruct (find_key _ _) as [e|key]; [destruct e; reflexivity|].
  destruct (truthy key); simpl; [|reflexivity].
  destruct (jwt_decode _ _ _ _ _ _ _) as [e|payload];
    [destruct e; reflexivity | reflexivity].
Qed.

(** Every failure of [verify_token] is an HTTP 401. *)
Lemma handle_verify_401 E e :
  exists detail, handle_verify E e = HTTPException 401 detail None.
Proof. destruct e; simpl; eauto. Qed.

Lemma verify_token_raises_401 E token w e w' :
  verify_token E token w = (inl e, w') ->
  exists detail, e = HTTPException 401 detail None.
Proof.
  rewrite verify_token_by_lookup.
  destruct (key_lookup E token w) as [[ex|ex| |ex| |key] w1];
    try (intros H; injection H as He _; rewrite <- He;
         first [apply handle_verify_401 | simpl; eauto]).
  destruct (decode_call E token key); [|discriminate].
  intros H; injection H as He _; rewrite <- He; apply handle_verify_401.
Qed.

(** C7: [decode_id_token] and [verify_token] accept exactly the same tokens,
    with the same claims, under the same cached key set and configuration;
    both leave the same world behind. *)
Theorem decode_id_token_accepts_iff_verify_token E token w :
  snd (decode_id_token E token w) = snd (verify_token E token w) /\
  forall payload : dict,
    fst (decode_id_token E token w) = inr payload <->
    fst (verify_token E token w) = inr payload.
Proof.
  rewrite decode_id_token_by_lookup, verify_token_by_lookup.
  destruct (key_lookup E token w) as [[ex|ex| |ex| |key] w1]; simpl;
    try (split; [reflexivity|]; intros payload;
         destruct (handle_verify_401 E ex) as [d ->];
         destruct ex; simpl; split; discriminate);
    try (split; [reflexivity|]; intros payload; split; discriminate).
  destruct (decode_call E token key) as [e|payload']; simpl.
  - split; [reflexivity|]. intros payload.
    destruct (handle_verify_401 E e) as [d ->].
    destruct e; simpl; split; discriminate.
  - split; [reflexivity|]. intros payload. tauto.
Qed.

(** A key-identifier that no key of the set carries: the specific 401 raised
    for it is caught by [verify_token]'s own [except Exception] and raised
    again under the catch-all message; [decode_id_token], which catches
    [JWTError] only, lets it through. *)
Lemma verify_token_unknown_kid E token w w1 :
  key_lookup E token w = (UnknownKid, w1) ->
  verify_token E token w =
    (inl (HTTPException 401
            ("Token verification failed: " ++
             str_HTTPException E 401 "Unable to find matching key for token")
            None),
     w1) /\
  decode_id_token E token w =
    (inl (HTTPException 401 "Unable to find matching key for ID token" None),
     w1).
Proof.
  intros H. rewrite verify_token_by_lookup, decode_id_token_by_lookup, H.
  split; reflexivity.
Qed.

(** C3, evaluated where it fails: the token [alice-k9] names key [k9], the key
    set holds [k1] only; [verify_token] answers with its catch-all failure
    ("Token verification failed: ..."), not with the failure it raised for
    the unknown key, which [decode_id_token] does return. *)
Theorem verify_token_unknown_kid_is_rewrapped :
  jwt_get_unverified_header (jose Example.env) "alice-k9" =
    inr [("alg", JStr "RS256"); ("kid", JStr "k9")] /\
  find_key (dict_get_default Example.jwks "keys" (JList [])) (JStr "k9") =
    inr JNull /\
  fst (verify_token Example.env "alice-k9" Example.fresh) =
    inl (HTTPException 401
           "Token verification failed: 401: Unable to find matching key for token"
           None) /\
  fst (decode_id_token Example.env "alice-k9" Example.fresh) =
    inl (HTTPException 401 "Unable to find matching key for ID token" None).
Proof. repeat split. Qed.

(** A token whose key-identifier is found in the key set and that the
    library's [decode] rejects with a [JWTError] makes [verify_token] fail
    with HTTP 401 and the library's message behind "Invalid token: ". *)
Lemma verify_token_reports_decode_rejection E token w jwks w1 hdr key m :
  get_jwks_keys E (log (EvVerify token) w) = (inr jwks, w1) ->
  jwt_get_unverified_header (jose E) token = inr hdr ->
  truthy (dict_get hdr "kid") = true ->
  find_key (dict_get_default jwks "keys" (JList [])) (dict_get hdr "kid") =
    inr key ->
  truthy key = true ->
  jwt_decode (jose E) token key [ALGORITHM (settings E)]
    (COGNITO_CLIENT_ID (settings E)) (cognito_issuer (settings E))
    all_checks = inl (JWTError m) ->
  verify_token E token w =
    (inl (HTTPException 401 ("Invalid token: " ++ m) None), w1).
Proof.
  intros Hk Hh Hkid Hf Hkey Hd.
  rewrite verify_token_by_lookup. unfold key_lookup, decode_call.
  rewrite Hk, Hh, Hkid. simpl. rewrite Hf, Hkey. simpl. rewrite Hd.
  reflexivity.
Qed.

Lemma verify_token_reports_decode_rejection_witness :
  verify_token Example.env "late-k1" Example.fresh =
    (inl (HTTPException 401 "Invalid token: Signature has expired." None),
     log (EvVerify "late-k1") Example.fresh).
Proof.
  apply (verify_token_reports_decode_rejection Example.env "late-k1"
           Example.fresh Example.jwks (log (EvVerify "late-k1") Example.fresh)
           [("alg", JStr "RS256"); ("kid", JStr "k1")] Example.key_k1
           "Signature has expired.");
    reflexivity.
Defined.

(** [late-k9] carries an expiry claim in the past and names a key the set
    does not hold: [verify_token] fails on the key lookup, before the
    library's [decode] is reached. *)
Lemma verify_token_expired_unknown_kid :
  (exists claims exp,
     jwt_get_unverified_claims (jose Example.env) "late-k9" = inr claims /\
     dict_lookup claims "exp" = Some (JNum exp) /\
     exp * 1000000 < utcnow Example.env) /\
  fst (verify_token Example.env "late-k9" Example.fresh) =
    inl (HTTPException 401
           "Token verification failed: 401: Unable to find matching key for token"
           None) /\
  forall m, fst (verify_token Example.env "late-k9" Example.fresh) <>
            inl (HTTPException 401 ("Invalid token: " ++ m) None).
Proof.
  split; [|split].
  - eexists. exists 1000. repeat split.
  - reflexivity.
  - intros m. vm_compute. discriminate.
Qed.

(** ** The authenticated forwarder *)




(** C9: a protected call without the session cookie fails with HTTP 401 at
    once; the world is left as it was, so no token was verified, no user
    looked up and nothing sent downstream. *)
Theorem create_plan_route_without_cookie E request w :
  cookies_get (cookies request) (COOKIE_NAME (settings E)) = None ->
  get_current_user E request w =
    (inl (HTTPException 401
            "Not authenticated. Missing access token cookie." bearer), w) /\
  create_plan_route E request w =
    (inl (HTTPException 401
            "Not authenticated. Missing access token cookie." bearer), w).
Proof.
  intros H. unfold create_plan_route, get_current_user. run. rewrite H.
  split; reflexivity.
Qed.

Lemma create_plan_route_without_cookie_witness :
  create_plan_route Example.env
    {| cookies := []; request_json := inr (JDict [("topic", JStr "rocq")]) |}
    Example.fresh =
    (inl (HTTPException 401
            "Not authenticated. Missing access token cookie." bearer),
     Example.fresh).
Proof.
  apply (create_plan_route_without_cookie Example.env
           {| cookies := [];
              request_json := inr (JDict [("topic", JStr "rocq")]) |}
           Example.fresh).
  reflexivity.
Defined.

(** ** Identity injection into forwarded payloads *)

Lemma dict_lookup_In d k v : In (k, v) d -> dict_lookup d k <> None.
Proof.
  induction d as [|[k' v'] d IH]; simpl; [tauto|].
  intros [H|H].
  - injection H as -> ->. rewrite String.eqb_refl. discriminate.
  - destruct (String.eqb k' k); [discriminate | auto].
Qed.

Lemma dict_set_lookup d k v : dict_lookup (dict_set d k v) k = Some v.
Proof.
  unfold dict_set, dict_mem.
  destruct (dict_lookup d k) eqn:Hl.
  - induction d as [|[k' v'] d IH]; simpl in *; [discriminate|].
    destruct (String.eqb k' k) eqn:Hk; simpl.
    + rewrite String.eqb_refl. reflexivity.
    + rewrite Hk. auto.
  - induction d as [|[k' v'] d IH]; simpl in *.
    + rewrite String.eqb_refl. reflexivity.
    + destruct (String.eqb k' k); [discriminate | auto].
Qed.

Lemma dict_set_only d k v v' : In (k, v') (dict_set d k v) -> v' = v.
Proof.
  unfold dict_set, dict_mem.
  destruct (dict_lookup d k) eqn:Hl.
  - intros H. apply in_map_iff in H as [[k0 v0] [Heq _]]. simpl in Heq.
    destruct (String.eqb k0 k) eqn:Hk.
    + now injection Heq as <-.
    + injection Heq as -> _. rewrite String.eqb_refl in Hk. discriminate.
  - intros H. apply in_app_or in H as [H|[H|[]]].
    + now apply dict_lookup_In in H.
    + now injection H as <-.
Qed.

Lemma dict_set_carries d uid :
  carries_user_id uid (JDict (dict_set d "user_id" (JStr (str_uuid uid)))).
Proof.
  eexists. split; [reflexivity|]. split.
  - apply dict_set_lookup.
  - intros v. apply dict_set_only.
Qed.

(** A proxy call records one forward, of the payload it was given, whatever
    the downstream service answers. *)
Lemma post_and_relay_trace E url body p q w :
  trace (snd (post_and_relay E url body p q w)) =
    (trace w ++ [EvForward url body])%list.
Proof.
  unfold post_and_relay. run.
  destruct (httpx_post_json E url body) as [e|r]; [destruct e|]; reflexivity.
Qed.

Lemma forwards_carry_nil uid : forwards_carry uid [].
Proof. intros url payload []. Qed.

Lemma forwards_carry_one uid url payload :
  carries_user_id uid payload -> forwards_carry uid [EvForward url payload].
Proof.
  intros H url' payload' [Heq|[]]. now injection Heq as _ <-.
Qed.

Lemma proxy_body_forward E url body uid p q w :
  exists evs,
    trace (snd ((b <- lift (setitem body "user_id" (JStr (str_uuid uid))) ;;
                 post_and_relay E url b p q) w)) = (trace w ++ evs)%list /\
    forwards_carry uid evs.
Proof.
  unfold bind, lift.
  destruct (setitem body "user_id" (JStr (str_uuid uid))) as [e|b] eqn:Hs.
  - exists []. simpl. rewrite app_nil_r. split; [reflexivity|].
    apply forwards_carry_nil.
  - exists [EvForward url b]. split; [apply post_and_relay_trace|].
    apply forwards_carry_one.
    destruct body; simpl in Hs; try discriminate.
    injection Hs as <-. apply dict_set_carries.
Qed.

(** C10: whatever the client put in its JSON body, every payload that
    [create_plan], [chat] and [query_rag] send downstream is a JSON object
    whose [user_id] is the authenticated user's id, and holds no other
    [user_id] entry. *)
Theorem forwarded_user_id_is_current_user E request request_data u w :
  (exists evs,
     trace (snd (create_plan E request u w)) = (trace w ++ evs)%list /\
     forwards_carry (id u) evs) /\
  (exists evs,
     trace (snd (chat E request u w)) = (trace w ++ evs)%list /\
     forwards_carry (id u) evs) /\
  (exists evs,
     trace (snd (query_rag E request_data u w)) = (trace w ++ evs)%list /\
     forwards_carry (id u) evs).
Proof.
  split; [|split].
  - apply proxy_body_forward.
  - apply proxy_body_forward.
  - unfold query_rag. eexists. split; [apply post_and_relay_trace|].
    apply forwards_carry_one, dict_set_carries.
Qed.

(** A client that sends its own [user_id]: the object that leaves the
    gateway has the authenticated user's id in its place. *)
Example create_plan_overwrites_client_user_id :
  trace (snd (create_plan Example.env
                {| cookies := [("access_token", "alice")];
                   request_json :=
                     inr (JDict [("user_id", JStr "someone-else");
                                 ("topic", JStr "rocq")]) |}
                Example.alice_row Example.fresh)) =
    [EvForward "http://generation:8001/create_plan"
       (JDict [("user_id", JStr "00000000-0000-4000-8000-000000000002");
               ("topic", JStr "rocq")])].
Proof. reflexivity. Qed.

(** ** Just-in-time provisioning *)

Lemma find_none_existsb {A} (f : A -> bool) l :
  find f l = None -> existsb f l = false.
Proof.
  induction l as [|a l IH]; simpl; [reflexivity|].
  destruct (f a); [discriminate | auto].
Qed.

Lemma first_by_sub_app_new us u sub :
  first_by_sub us sub = None ->
  py_eq (cognito_sub u) sub = true ->
  first_by_sub (us ++ [u]) sub = Some u.
Proof.
  unfold first_by_sub. intros Hn Hu.
  induction us as [|a us IH]; simpl in *.
  - now rewrite Hu.
  - destruct (py_eq (cognito_sub a) sub); [discriminate | auto].
Qed.

Lemma py_eq_str_refl s : py_eq (JStr s) (JStr s) = true.
Proof. simpl. apply String.eqb_refl. Qed.

(** Step 4 alone: when the subject was not found and the insert violates a
    uniqueness constraint, the violation is raised; the table is not read
    again and no row is inserted. *)
Lemma callback_provision_surfaces_violation E sub em name w c :
  first_by_sub (users w) sub = None ->
  violated_constraint (concurrent_commits E (users w))
    (new_user E sub em name) = Some c ->
  callback_provision E sub em name w =
    (inl (IntegrityError c),
     set_users (concurrent_commits E (users w)) (log (EvDbQuery sub) w)).
Proof.
  intros Hq Hv. unfold callback_provision, query_user_by_sub. run.
  rewrite Hq. unfold add_commit_refresh. simpl.
  unfold new_user in Hv. rewrite Hv. reflexivity.
Qed.

Lemma callback_provision_surfaces_violation_witness :
  callback_provision Example.env_racing
    (JStr "u-1") (JStr "a@x.com") (JStr "a") Example.fresh =
    (inl (IntegrityError "ix_users_email"),
     set_users [Example.alice_row]
       (log (EvDbQuery (JStr "u-1")) Example.fresh)).
Proof.
  apply (callback_provision_surfaces_violation Example.env_racing
           (JStr "u-1") (JStr "a@x.com") (JStr "a") Example.fresh
           "ix_users_email");
    reflexivity.
Defined.

(** C5 as stated fails: subject [u-1] has no row when [callback] looks, a
    concurrent login commits it before the insert, and [callback] ends with
    the integrity error instead of the row that now exists. *)
Lemma callback_race_raises_integrity_error :
  first_by_sub (users Example.fresh) (JStr "u-1") = None /\
  first_by_sub (concurrent_commits Example.env_racing (users Example.fresh))
    (JStr "u-1") = Some Example.alice_row /\
  fst (callback_provision Example.env_racing
         (JStr "u-1") (JStr "a@x.com") (JStr "a") Example.fresh) =
    inl (IntegrityError "ix_users_email") /\
  fst (callback Example.env_racing "abc123" Example.fresh) =
    inl (IntegrityError "ix_users_email").
Proof. repeat split. Qed.

(** C6, as the code has it: from a table with no row for the subject, no
    row holding the claimed email and none with the generated id, two
    resolutions in sequence return the same row (hence the same id), insert
    exactly once, and the second returns the stored row whatever email and
    name it was called with. *)
Theorem callback_provision_twice_in_sequence
    E1 E2 s email1 name1 email2 name2 w :
  concurrent_commits E1 (users w) = users w ->
  first_by_sub (users w) (JStr s) = None ->
  existsb (fun v => py_eq (email v) email1) (users w) = false ->
  existsb (fun v => String.eqb (id v) (uuid4 E1)) (users w) = false ->
  let u := new_user E1 (JStr s) email1 name1 in
  exists w1 w2 evs,
    callback_provision E1 (JStr s) email1 name1 w = (inr u, w1) /\
    callback_provision E2 (JStr s) email2 name2 w1 = (inr u, w2) /\
    users w2 = (users w ++ [u])%list /\
    trace w2 = (trace w ++ evs)%list /\
    count_inserts evs = 1%nat.
Proof.
  intros Hseq Hq Hem Hid u.
  assert (Hfirst :
    callback_provision E1 (JStr s) email1 name1 w =
      (inr u, log (EvDbInsert u)
                (set_users (users w ++ [u])%list
                   (log (EvDbQuery (JStr s)) w)))).
  { unfold callback_provision, query_user_by_sub. run. rewrite Hq.
    unfold add_commit_refresh. simpl. rewrite Hseq.
    unfold violated_constraint. simpl. rewrite Hid, Hem.
    rewrite (find_none_existsb _ _ Hq). reflexivity. }
  eexists. eexists.
  exists [EvDbQuery (JStr s); EvDbInsert u; EvDbQuery (JStr s)].
  split; [exact Hfirst|]. split; [|split; [|split]].
  - unfold callback_provision, query_user_by_sub. run.
    rewrite (first_by_sub_app_new (users w) u (JStr s) Hq (py_eq_str_refl s)).
    reflexivity.
  - reflexivity.
  - simpl. rewrite <- !app_assoc. reflexivity.
  - reflexivity.
Qed.

Lemma callback_provision_twice_in_sequence_witness :
  exists w1 w2 evs,
    callback_provision Example.env
      (JStr "u-1") (JStr "a@x.com") (JStr "a") Example.fresh =
      (inr Example.new_alice, w1) /\
    callback_provision Example.env_racing
      (JStr "u-1") (JStr "alice@y.org") (JStr "Alice") w1 =
      (inr Example.new_alice, w2) /\
    users w2 = (users Example.fresh ++ [Example.new_alice])%list /\
    trace w2 = (trace Example.fresh ++ evs)%list /\
    count_inserts evs = 1%nat.
Proof.
  apply (callback_provision_twice_in_sequence Example.env Example.env_racing
           "u-1" (JStr "a@x.com") (JStr "a") (JStr "alice@y.org")
           (JStr "Alice") Example.fresh);
    reflexivity.
Defined.

(** C6 as stated fails when another account already holds the email: no row
    exists for subject [u-1], yet both resolutions end with the integrity
    error, no user is returned and nothing is inserted. *)
Lemma callback_provision_email_taken :
  first_by_sub (users Example.with_bob) (JStr "u-1") = None /\
  (exists w1,
     callback_provision Example.env
       (JStr "u-1") (JStr "a@x.com") (JStr "a") Example.with_bob =
       (inl (IntegrityError "ix_users_email"), w1) /\
     fst (callback_provision Example.env
            (JStr "u-1") (JStr "a@x.com") (JStr "a") w1) =
       inl (IntegrityError "ix_users_email") /\
     count_inserts (trace (snd (callback_provision Example.env
            (JStr "u-1") (JStr "a@x.com") (JStr "a") w1))) = 0%nat).
Proof. split; [reflexivity|]. eexists. repeat split. Qed.

(** * Further properties of the code *)

(** ** [get_jwks_keys] *)

Lemma get_jwks_keys_users E w : users (snd (get_jwks_keys E w)) = users w.
Proof.
  unfold get_jwks_keys.
  destruct (cache_still_valid w (utcnow E)).
  - destruct (_jwks_cache w); [reflexivity|].
    destruct (requests_get E _); reflexivity.
  - destruct (requests_get E _); reflexivity.
Qed.

Lemma cache_still_valid_some w now :
  cache_still_valid w now = true -> exists c, _jwks_cache w = Some c.
Proof.
  unfold cache_still_valid. destruct (_jwks_cache w); [eauto | discriminate].
Qed.

Lemma get_jwks_keys_served E w :
  cache_still_valid w (utcnow E) = true ->
  exists c, _jwks_cache w = Some c /\ get_jwks_keys E w = (inr c, w).
Proof.
  intros H. destruct (cache_still_valid_some _ _ H) as [c Hc].
  exists c. split; [exact Hc|]. unfold get_jwks_keys. rewrite H, Hc.
  reflexivity.
Qed.

Lemma get_jwks_keys_raises_500 E w e w' :
  get_jwks_keys E w = (inl e, w') -> exists d, e = HTTPException 500 d None.
Proof.
  destruct (cache_still_valid w (utcnow E)) eqn:Hv.
  - destruct (get_jwks_keys_served E w Hv) as [c [_ ->]]. discriminate.
  - rewrite (get_jwks_keys_refresh E w Hv). cbv zeta.
    destruct (requests_get E _); [|discriminate].
    intros H. injection H as <- _. eauto.
Qed.

Lemma cache_still_valid_log ev w now :
  cache_still_valid (log ev w) now = cache_still_valid w now.
Proof. reflexivity. Qed.



(** X2: after a fetch that brought a non-empty key set, a second call within
    the hour is served from the cache: it returns the same key set, fetches
    nothing and leaves the world as it is, whatever the provider would
    answer by then. *)
Theorem get_jwks_keys_second_call_is_served E1 E2 w body :
  cache_still_valid w (utcnow E1) = false ->
  requests_get E1 (jwks_url (settings E1)) = inr body ->
  body <> [] ->
  utcnow E2 - utcnow E1 < _CACHE_DURATION ->
  exists w1,
    get_jwks_keys E1 w = (inr body, w1) /\
    get_jwks_keys E2 w1 = (inr body, w1) /\
    trace w1 = (trace w ++ [EvJwksFetch (jwks_url (settings E1))])%list.
Proof.
  intros Hv Hf Hne Hlt. eexists. split; [|split].
  - rewrite (get_jwks_keys_refresh E1 w Hv). cbv zeta. rewrite Hf.
    reflexivity.
  - unfold get_jwks_keys.
    rewrite (cache_still_valid_intro _ (utcnow E2) body (utcnow E1));
      try reflexivity; auto.
    destruct body; [contradiction | reflexivity].
  - reflexivity.
Qed.

Lemma get_jwks_keys_second_call_is_served_witness :
  exists w1,
    get_jwks_keys Example.env Example.stale = (inr Example.jwks, w1) /\
    get_jwks_keys Example.env_provider_down w1 = (inr Example.jwks, w1) /\
    trace w1 =
      (trace Example.stale ++ [EvJwksFetch (jwks_url Example.config)])%list.
Proof.
  apply (get_jwks_keys_second_call_is_served Example.env
           Example.env_provider_down Example.stale Example.jwks).
  - reflexivity.
  - reflexivity.
  - discriminate.
  - vm_compute. reflexivity.
Defined.

(** X3: the time-to-live is a strict bound.  A key set fetched exactly one
    hour ago, or earlier, is not served: the endpoint is asked, and its
    answer replaces the held key set and timestamp as a whole. *)
Theorem get_jwks_keys_refetches_at_ttl E w t body :
  _jwks_cache_time w = Some t ->
  _CACHE_DURATION <= utcnow E - t ->
  requests_get E (jwks_url (settings E)) = inr body ->
  get_jwks_keys E w =
    (inr body,
     set_cache body (utcnow E)
       (log (EvJwksFetch (jwks_url (settings E))) w)).
Proof.
  intros Ht Hle Hf.
  assert (Hv : cache_still_valid w (utcnow E) = false).
  { unfold cache_still_valid. rewrite Ht.
    destruct (_jwks_cache w); [|reflexivity].
    replace (utcnow E - t <? _CACHE_DURATION) with false.
    - apply andb_false_r.
    - symmetry. apply Z.ltb_ge. exact Hle. }
  rewrite (get_jwks_keys_refresh E w Hv). cbv zeta. rewrite Hf. reflexivity.
Qed.

Lemma get_jwks_keys_refetches_at_ttl_witness :
  get_jwks_keys Example.env Example.at_ttl =
    (inr Example.jwks,
     set_cache Example.jwks (utcnow Example.env)
       (log (EvJwksFetch (jwks_url Example.config)) Example.at_ttl)).
Proof.
  apply (get_jwks_keys_refetches_at_ttl Example.env Example.at_ttl
           (1400 * 1000000) Example.jwks).
  - reflexivity.
  - vm_compute. discriminate.
  - reflexivity.
Defined.

(** X4: [get_jwks_keys] never touches the user table; it records nothing,
    or exactly one fetch of the configured key endpoint; and it only ever
    fails with HTTP 500. *)
Theorem get_jwks_keys_frame E w :
  users (snd (get_jwks_keys E w)) = users w /\
  (trace (snd (get_jwks_keys E w)) = trace w \/
   trace (snd (get_jwks_keys E w)) =
     (trace w ++ [EvJwksFetch (jwks_url (settings E))])%list) /\
  (forall e, fst (get_jwks_keys E w) = inl e ->
             exists d, e = HTTPException 500 d None).
Proof.
  split; [apply get_jwks_keys_users|]. split.
  - destruct (cache_still_valid w (utcnow E)) eqn:Hv.
    + destruct (get_jwks_keys_served E w Hv) as [c [_ ->]]. now left.
    + rewrite (get_jwks_keys_refresh E w Hv). cbv zeta.
      destruct (requests_get E _); right; reflexivity.
  - intros e He.
    destruct (get_jwks_keys E w) as [r w'] eqn:Hg. simpl in He. subst r.
    exact (get_jwks_keys_raises_500 E w e w' Hg).
Qed.

(** ** Key lookup and [verify_token] / [decode_id_token] *)

Lemma find_key_in_found l kid key :
  find_key_in l kid = inr key -> truthy key = true ->
  In key l /\
  exists d, key = JDict d /\ py_eq (dict_get d "kid") kid = true.
Proof.
  induction l as [|jwk l IH]; simpl.
  - intros H. injection H as <-. discriminate.
  - destruct jwk as [| | | | |d]; try discriminate.
    destruct (py_eq (dict_get d "kid") kid) eqn:Hk.
    + intros H _. injection H as <-. split; [now left | eauto].
    + intros H Ht. destruct (IH H Ht) as [Hin Hd]. split; [now right | exact Hd].
Qed.

Lemma find_key_found keys kid key :
  find_key keys kid = inr key -> truthy key = true ->
  exists l d, keys = JList l /\ In key l /\ key = JDict d /\
              py_eq (dict_get d "kid") kid = true.
Proof.
  destruct keys as [| | |s|l|d]; simpl; try discriminate.
  - destruct (String.eqb s ""); [|discriminate].
    intros H. injection H as <-. discriminate.
  - intros H Ht. destruct (find_key_in_found l kid key H Ht) as [Hin [d [-> Hk]]].
    exists l, d. auto.
  - destruct d; [|discriminate]. intros H. injection H as <-. discriminate.
Qed.

Lemma find_key_in_no_match l kid :
  (forall j, In j l ->
     exists d, j = JDict d /\ py_eq (dict_get d "kid") kid = false) ->
  find_key_in l kid = inr JNull.
Proof.
  induction l as [|jwk l IH]; simpl; [reflexivity|].
  intros H. destruct (H jwk (or_introl eq_refl)) as [d [-> Hk]].
  rewrite Hk. apply IH. intros j Hj. apply H. now right.
Qed.

Lemma find_key_raises_PyError keys kid e :
  find_key keys kid = inl e -> exists c m, e = PyError c m.
Proof.
  assert (Hin : forall l, find_key_in l kid = inl e ->
                          exists c m, e = PyError c m).
  { induction l as [|jwk l IH]; simpl; [discriminate|].
    destruct jwk as [| | | | |d];
      try (intros H; injection H as <-; unfold no_attribute; eauto).
    destruct (py_eq (dict_get d "kid") kid); [discriminate | exact IH]. }
  destruct keys as [| | |s|l|d]; simpl;
    try (intros H; injection H as <-; unfold not_iterable; eauto).
  - destruct (String.eqb s ""); [discriminate|].
    intros H; injection H as <-; unfold no_attribute; eauto.
  - apply Hin.
  - destruct d; [discriminate|].
    intros H; injection H as <-; unfold no_attribute; eauto.
Qed.

(** X5: the key lookup stops at the first key whose [kid] equals the
    token's: it is that key which is used, and what follows it in the key
    set is not looked at, well formed or not. *)
Theorem find_key_first_match pre d post kid :
  (forall j, In j pre ->
     exists d', j = JDict d' /\ py_eq (dict_get d' "kid") kid = false) ->
  py_eq (dict_get d "kid") kid = true ->
  find_key (JList (pre ++ JDict d :: post)) kid = inr (JDict d).
Proof.
  intros Hpre Hd. simpl.
  induction pre as [|j pre IH]; simpl.
  - now rewrite Hd.
  - destruct (Hpre j (or_introl eq_refl)) as [d' [-> Hk]]. rewrite Hk.
    apply IH. intros j' Hj'. apply Hpre. now right.
Qed.

Lemma find_key_first_match_witness :
  find_key
    (JList ([JDict [("kid", JStr "k0")]] ++
            JDict [("kid", JStr "k1"); ("n", JStr "first")] ::
            [JDict [("kid", JStr "k1"); ("n", JStr "second")]; JNum 7]))
    (JStr "k1") =
    inr (JDict [("kid", JStr "k1"); ("n", JStr "first")]).
Proof.
  apply (find_key_first_match [JDict [("kid", JStr "k0")]]
           [("kid", JStr "k1"); ("n", JStr "first")]
           [JDict [("kid", JStr "k1"); ("n", JStr "second")]; JNum 7]
           (JStr "k1")).
  - intros j [<-|[]]. eexists. split; reflexivity.
  - reflexivity.
Defined.

(** X6: when the key set has no ["keys"] entry, or a list of keys none of
    which carries the token's [kid], both entry points end in their
    unknown-key failure: [verify_token] under its catch-all message,
    [decode_id_token] under its own; the library's [decode] is not
    consulted. *)
Theorem no_matching_key_outcome E token w jwks w1 hdr :
  get_jwks_keys E (log (EvVerify token) w) = (inr jwks, w1) ->
  jwt_get_unverified_header (jose E) token = inr hdr ->
  truthy (dict_get hdr "kid") = true ->
  (dict_lookup jwks "keys" = None \/
   exists l, dict_lookup jwks "keys" = Some (JList l) /\
             forall j, In j l ->
               exists d, j = JDict d /\
                         py_eq (dict_get d "kid") (dict_get hdr "kid") = false) ->
  verify_token E token w =
    (inl (HTTPException 401
            ("Token verification failed: " ++
             str_HTTPException E 401 "Unable to find matching key for token")
            None), w1) /\
  decode_id_token E token w =
    (inl (HTTPException 401 "Unable to find matching key for ID token" None),
     w1).
Proof.
  intros Hk Hh Hkid Hkeys.
  apply verify_token_unknown_kid.
  unfold key_lookup. rewrite Hk, Hh, Hkid. simpl.
  assert (Hf : find_key (dict_get_default jwks "keys" (JList []))
                 (dict_get hdr "kid") = inr JNull).
  { unfold dict_get_default.
    destruct Hkeys as [-> | [l [-> Hl]]]; [reflexivity|].
    simpl. now apply find_key_in_no_match. }
  rewrite Hf. reflexivity.
Qed.

Lemma no_matching_key_outcome_witness :
  verify_token Example.env_empty_answer "alice" (Example.world None None []) =
    (inl (HTTPException 401
            "Token verification failed: 401: Unable to find matching key for token"
            None),
     snd (get_jwks_keys Example.env_empty_answer
            (log (EvVerify "alice") (Example.world None None [])))) /\
  decode_id_token Example.env_empty_answer "alice"
    (Example.world None None []) =
    (inl (HTTPException 401 "Unable to find matching key for ID token" None),
     snd (get_jwks_keys Example.env_empty_answer
            (log (EvVerify "alice") (Example.world None None [])))).
Proof.
  apply (no_matching_key_outcome Example.env_empty_answer "alice"
           (Example.world None None []) []
           _ [("alg", JStr "RS256"); ("kid", JStr "k1")]).
  - reflexivity.
  - reflexivity.
  - reflexivity.
  - left. reflexivity.
Defined.

(** X7: [verify_token] returns claims only if the library's [decode]
    accepted the token, with signature, expiry, audience and issuer checks
    all on, the configured algorithm, client id and issuer, and a key that
    is an entry of the current key set whose [kid] equals the one in the
    token header. *)
Theorem verify_token_sound E token w payload w' :
  verify_token E token w = (inr payload, w') ->
  exists jwks hdr l d,
    get_jwks_keys E (log (EvVerify token) w) = (inr jwks, w') /\
    jwt_get_unverified_header (jose E) token = inr hdr /\
    truthy (dict_get hdr "kid") = true /\
    dict_get_default jwks "keys" (JList []) = JList l /\
    In (JDict d) l /\
    py_eq (dict_get d "kid") (dict_get hdr "kid") = true /\
    jwt_decode (jose E) token (JDict d) [ALGORITHM (settings E)]
      (COGNITO_CLIENT_ID (settings E)) (cognito_issuer (settings E))
      {| verify_signature := true; verify_exp := true;
         verify_aud := true; verify_iss := true |} = inr payload.
Proof.
  rewrite verify_token_by_lookup. unfold key_lookup, decode_call, all_checks.
  destruct (get_jwks_keys E (log (EvVerify token) w)) as [[e|jwks] w1];
    [discriminate|].
  destruct (jwt_get_unverified_header (jose E) token) as [e|hdr];
    [discriminate|].
  destruct (truthy (dict_get hdr "kid")) eqn:Hkid; simpl; [|discriminate].
  destruct (find_key _ _) as [e|key] eqn:Hf; [discriminate|].
  destruct (truthy key) eqn:Hkey; simpl; [|discriminate].
  destruct (jwt_decode _ _ _ _ _ _ _) as [e|p] eqn:Hd; [discriminate|].
  intros H. injection H as <- <-.
  destruct (find_key_found _ _ _ Hf Hkey) as [l [d [Hl [Hin [-> Hk]]]]].
  exists jwks, hdr, l, d. repeat split; auto.
Qed.

Lemma verify_token_sound_witness :
  exists jwks hdr l d,
    get_jwks_keys Example.env (log (EvVerify "alice") Example.fresh) =
      (inr jwks, log (EvVerify "alice") Example.fresh) /\
    jwt_get_unverified_header (jose Example.env) "alice" = inr hdr /\
    truthy (dict_get hdr "kid") = true /\
    dict_get_default jwks "keys" (JList []) = JList l /\
    In (JDict d) l /\
    py_eq (dict_get d "kid") (dict_get hdr "kid") = true /\
    jwt_decode (jose Example.env) "alice" (JDict d)
      [ALGORITHM (settings Example.env)]
      (COGNITO_CLIENT_ID (settings Example.env))
      (cognito_issuer (settings Example.env))
      {| verify_signature := true; verify_exp := true;
         verify_aud := true; verify_iss := true |} =
      inr [("sub", JStr "u-1"); ("email", JStr "a@x.com"); ("exp", JNum 9000)].
Proof.
  apply (verify_token_sound Example.env "alice" Example.fresh).
  reflexivity.
Defined.

(** X8: when the key set cannot be had (nothing served from the cache and
    the fetch fails), [verify_token] turns the HTTP 500 of [get_jwks_keys]
    into an HTTP 401, while [decode_id_token] lets the HTTP 500 through. *)
Theorem key_set_unavailable_outcome E token w e :
  cache_still_valid w (utcnow E) = false ->
  requests_get E (jwks_url (settings E)) = inl e ->
  verify_token E token w =
    (inl (HTTPException 401
            ("Token verification failed: " ++
             str_HTTPException E 500
               ("Failed to fetch JWKS keys: " ++ str_exn E e)) None),
     log (EvJwksFetch (jwks_url (settings E))) (log (EvVerify token) w)) /\
  decode_id_token E token w =
    (inl (HTTPException 500
            ("Failed to fetch JWKS keys: " ++ str_exn E e) None),
     log (EvJwksFetch (jwks_url (settings E))) (log (EvVerify token) w)).
Proof.
  intros Hv Hf.
  rewrite verify_token_by_lookup, decode_id_token_by_lookup.
  unfold key_lookup.
  rewrite (get_jwks_keys_refresh E (log (EvVerify token) w)
             (eq_trans (cache_still_valid_log _ _ _) Hv)).
  cbv zeta. rewrite Hf. split; reflexivity.
Qed.

Lemma key_set_unavailable_outcome_witness :
  verify_token Example.env_provider_down "alice" Example.stale =
    (inl (HTTPException 401
            "Token verification failed: 500: Failed to fetch JWKS keys: connection refused"
            None),
     log (EvJwksFetch (jwks_url Example.config))
       (log (EvVerify "alice") Example.stale)) /\
  decode_id_token Example.env_provider_down "alice" Example.stale =
    (inl (HTTPException 500
            "Failed to fetch JWKS keys: connection refused" None),
     log (EvJwksFetch (jwks_url Example.config))
       (log (EvVerify "alice") Example.stale)).
Proof.
  apply (key_set_unavailable_outcome Example.env_provider_down "alice"
           Example.stale (PyError "ConnectionError" "connection refused"));
    reflexivity.
Defined.

(** X9: [decode_id_token] never raises a [JWTError]: whatever the library
    raises of that kind leaves as an HTTP 401. *)
Theorem decode_id_token_never_raises_JWTError E token w e w' :
  decode_id_token E token w = (inl e, w') -> is_JWTError e = false.
Proof.
  assert (Hh : forall x, is_JWTError (handle_decode x) = false)
    by (intros []; reflexivity).
  rewrite decode_id_token_by_lookup. unfold key_lookup.
  destruct (get_jwks_keys E (log (EvVerify token) w)) as [[x|jwks] w1] eqn:Hg.
  { intros H. injection H as <- _. apply Hh. }
  destruct (jwt_get_unverified_header (jose E) token) as [x|hdr].
  { intros H. injection H as <- _. apply Hh. }
  destruct (truthy (dict_get hdr "kid")); simpl.
  2:{ intros H. injection H as <- _. reflexivity. }
  destruct (find_key _ _) as [x|key].
  { intros H. injection H as <- _. apply Hh. }
  destruct (truthy key); simpl.
  2:{ intros H. injection H as <- _. reflexivity. }
  destruct (decode_call E token key) as [x|p]; [|discriminate].
  intros H. injection H as <- _. apply Hh.
Qed.

Lemma decode_id_token_never_raises_JWTError_witness :
  decode_id_token Example.env "late-k1" Example.fresh =
    (inl (HTTPException 401 "Invalid ID token: Signature has expired." None),
     log (EvVerify "late-k1") Example.fresh) /\
  is_JWTError
    (HTTPException 401 "Invalid ID token: Signature has expired." None) =
    false.
Proof.
  split; [reflexivity|].
  apply (decode_id_token_never_raises_JWTError Example.env "late-k1"
           Example.fresh _ (log (EvVerify "late-k1") Example.fresh)).
  reflexivity.
Defined.

(** ** [get_current_user], [get_optional_user] and [auth_status] *)

Lemma key_lookup_world E token w :
  snd (key_lookup E token w) = snd (get_jwks_keys E (log (EvVerify token) w)).
Proof.
  unfold key_lookup.
  destruct (get_jwks_keys E (log (EvVerify token) w)) as [[e|jwks] w1];
    [reflexivity|].
  destruct (jwt_get_unverified_header (jose E) token); [reflexivity|].
  destruct (truthy _); simpl; [|reflexivity].
  destruct (find_key _ _) as [e|key]; [reflexivity|].
  destruct (truthy key); reflexivity.
Qed.

Lemma verify_token_world E token w :
  snd (verify_token E token w) =
  snd (get_jwks_keys E (log (EvVerify token) w)).
Proof.
  rewrite verify_token_by_lookup, <- key_lookup_world.
  destruct (key_lookup E token w) as [[e|e| |e| |key] w1]; try reflexivity.
  destruct (decode_call E token key); reflexivity.
Qed.

Lemma decode_id_token_world E token w :
  snd (decode_id_token E token w) =
  snd (get_jwks_keys E (log (EvVerify token) w)).
Proof.
  rewrite decode_id_token_by_lookup, <- key_lookup_world.
  destruct (key_lookup E token w) as [[e|e| |e| |key] w1]; try reflexivity.
  destruct (decode_call E token key); reflexivity.
Qed.

(** What a lookup of the key set, entered with [token], leaves behind. *)
Lemma get_jwks_keys_after_verify_event E token w :
  let w1 := snd (get_jwks_keys E (log (EvVerify token) w)) in
  users w1 = users w /\
  (exists evs, trace w1 = (trace w ++ evs)%list /\
               forallb is_read_event evs = true) /\
  (cache_coherent w = true -> cache_coherent w1 = true).
Proof.
  cbv zeta. set (w0 := log (EvVerify token) w).
  split; [|split].
  - rewrite get_jwks_keys_users. reflexivity.
  - destruct (cache_still_valid w0 (utcnow E)) eqn:Hv.
    + destruct (get_jwks_keys_served E w0 Hv) as [c [_ ->]].
      exists [EvVerify token]. split; reflexivity.
    + rewrite (get_jwks_keys_refresh E w0 Hv). cbv zeta.
      exists [EvVerify token; EvJwksFetch (jwks_url (settings E))].
      destruct (requests_get E _); simpl; rewrite <- app_assoc;
        split; reflexivity.
  - intros Hc.
    destruct (cache_still_valid w0 (utcnow E)) eqn:Hv.
    + destruct (get_jwks_keys_served E w0 Hv) as [c [_ ->]]. exact Hc.
    + rewrite (get_jwks_keys_refresh E w0 Hv). cbv zeta.
      destruct (requests_get E _); [exact Hc | reflexivity].
Qed.

(** The world [get_current_user] leaves: the one it found, the one the
    verification left, or that one with a user query recorded. *)
Lemma get_current_user_world E request w :
  let w' := snd (get_current_user E request w) in
  w' = w \/
  exists token,
    let w1 := snd (get_jwks_keys E (log (EvVerify token) w)) in
    w' = w1 \/ exists sub, w' = log (EvDbQuery sub) w1.
Proof.
  cbv zeta. unfold get_current_user.
  destruct (cookies_get (cookies request) (COOKIE_NAME (settings E)))
    as [[|c t]|]; [now left | | now left].
  right. exists (String c t). run.
  rewrite <- verify_token_world.
  destruct (verify_token E (String c t) w) as [[e|payload] w1]; simpl.
  - destruct e; now left.
  - destruct (truthy (dict_get payload "sub")); simpl; [|now left].
    unfold query_user_by_sub. right. exists (dict_get payload "sub").
    destruct (first_by_sub _ _); reflexivity.
Qed.

Lemma get_current_user_raises_http E request w e w' :
  get_current_user E request w = (inl e, w') ->
  exists s d h, e = HTTPException s d h.
Proof.
  unfold get_current_user.
  destruct (cookies_get (cookies request) (COOKIE_NAME (settings E)))
    as [[|c t]|]; try (intros H; injection H as <- _; eauto).
  run.
  destruct (verify_token E (String c t) w) as [[e1|payload] w1] eqn:Hv.
  - destruct (verify_token_raises_401 E _ w e1 w1 Hv) as [d ->].
    intros H. injection H as <- _. eauto.
  - destruct (truthy (dict_get payload "sub")); simpl.
    + unfold query_user_by_sub.
      destruct (first_by_sub (users w1) (dict_get payload "sub"));
        [discriminate|].
      intros H. injection H as <- _. eauto.
    + intros H. injection H as <- _. eauto.
Qed.

(** X10: the user [get_current_user] returns is a row of the user table
    whose [cognito_sub] equals the [sub] claim of a token that came in the
    session cookie and that [verify_token] accepted; it is the first such
    row. *)
Theorem get_current_user_sound E request w u w' :
  get_current_user E request w = (inr u, w') ->
  exists token payload w1,
    cookies_get (cookies request) (COOKIE_NAME (settings E)) = Some token /\
    token <> "" /\
    verify_token E token w = (inr payload, w1) /\
    truthy (dict_get payload "sub") = true /\
    first_by_sub (users w) (dict_get payload "sub") = Some u /\
    In u (users w) /\
    py_eq (cognito_sub u) (dict_get payload "sub") = true.
Proof.
  unfold get_current_user.
  destruct (cookies_get (cookies request) (COOKIE_NAME (settings E)))
    as [[|c t]|]; try discriminate.
  run.
  destruct (verify_token E (String c t) w) as [[e1|payload] w1] eqn:Hv.
  { destruct e1; discriminate. }
  destruct (truthy (dict_get payload "sub")) eqn:Hs; simpl; [|discriminate].
  unfold query_user_by_sub.
  destruct (first_by_sub (users w1) (dict_get payload "sub")) as [u0|] eqn:Hq;
    [|discriminate].
  intros H. injection H as <- _.
  assert (Hu : users w1 = users w).
  { replace w1 with (snd (verify_token E (String c t) w)) by now rewrite Hv.
    rewrite verify_token_world, get_jwks_keys_users. reflexivity. }
  rewrite Hu in Hq.
  exists (String c t), payload, w1. repeat split; auto; try discriminate.
  - unfold first_by_sub in Hq. now apply find_some in Hq.
  - unfold first_by_sub in Hq. now apply find_some in Hq.
Qed.

Lemma get_current_user_frame E request w :
  users (snd (get_current_user E request w)) = users w /\
  exists evs,
    trace (snd (get_current_user E request w)) = (trace w ++ evs)%list /\
    forallb is_read_event evs = true.
Proof.
  destruct (get_current_user_world E request w) as [->|[token H]].
  { split; [reflexivity|]. exists []. now rewrite app_nil_r. }
  cbv zeta in H.
  destruct (get_jwks_keys_after_verify_event E token w)
    as [Hu [[evs [Ht Hr]] _]].
  destruct H as [->|[sub ->]].
  - split; [exact Hu|]. exists evs. auto.
  - split; [exact Hu|]. exists (evs ++ [EvDbQuery sub])%list. split.
    + simpl. rewrite Ht. now rewrite app_assoc.
    + rewrite forallb_app, Hr. reflexivity.
Qed.

(** X11: authentication only reads.  [get_current_user] leaves the user
    table as it is, and what it records are verifications, key fetches and
    user queries: no insert and no forward. *)
Theorem get_current_user_only_reads E request w :
  users (snd (get_current_user E request w)) = users w /\
  exists evs,
    trace (snd (get_current_user E request w)) = (trace w ++ evs)%list /\
    forallb is_read_event evs = true.
Proof. apply get_current_user_frame. Qed.


(** X13: a session cookie that is present but empty.  [get_current_user]
    treats it as missing and fails at once, world untouched, while
    [auth_status] reports the caller as authenticated. *)
Theorem empty_cookie_is_missing_for_get_current_user E request w :
  cookies_get (cookies request) (COOKIE_NAME (settings E)) = Some "" ->
  get_current_user E request w =
    (inl (HTTPException 401
            "Not authenticated. Missing access token cookie." bearer), w) /\
  dict_lookup (auth_status E request) "authenticated" = Some (JBool true).
Proof.
  intros H. unfold get_current_user, auth_status. rewrite H.
  split; reflexivity.
Qed.

(** X14: [get_optional_user] never raises: it returns the user whenever
    [get_current_user] does and [None] whenever [get_current_user] fails,
    and leaves the same world. *)
Theorem get_optional_user_never_raises E request w :
  (exists u w', get_current_user E request w = (inr u, w') /\
                get_optional_user E request w = (inr (Some u), w')) \/
  (exists e w', get_current_user E request w = (inl e, w') /\
                get_optional_user E request w = (inr None, w')).
Proof.
  unfold get_optional_user. run.
  destruct (get_current_user E request w) as [[e|u] w'] eqn:Hg.
  - right. exists e, w'. split; [reflexivity|].
    destruct (get_current_user_raises_http E request w e w' Hg)
      as [s [d [h ->]]].
    reflexivity.
  - left. exists u, w'. split; reflexivity.
Qed.

(** X15: whoever [get_current_user] accepts is reported as authenticated
    by [auth_status]. *)
Theorem auth_status_holds_for_current_user E request w u w' :
  get_current_user E request w = (inr u, w') ->
  dict_lookup (auth_status E request) "authenticated" = Some (JBool true).
Proof.
  unfold get_current_user, auth_status.
  destruct (cookies_get (cookies request) (COOKIE_NAME (settings E)))
    as [[|c t]|]; try discriminate; reflexivity.
Qed.

Lemma get_current_user_sound_witness :
  exists token payload w1,
    cookies_get (cookies (Example.request_with_cookie "alice"))
      (COOKIE_NAME (settings Example.env)) = Some token /\
    token <> "" /\
    verify_token Example.env token Example.provisioned = (inr payload, w1) /\
    truthy (dict_get payload "sub") = true /\
    first_by_sub (users Example.provisioned) (dict_get payload "sub") =
      Some Example.alice_row /\
    In Example.alice_row (users Example.provisioned) /\
    py_eq (cognito_sub Example.alice_row) (dict_get payload "sub") = true.
Proof.
  apply (get_current_user_sound Example.env
           (Example.request_with_cookie "alice") Example.provisioned
           Example.alice_row
           (log (EvDbQuery (JStr "u-1"))
              (log (EvVerify "alice") Example.provisioned))).
  reflexivity.
Defined.


Lemma empty_cookie_is_missing_for_get_current_user_witness :
  get_current_user Example.env (Example.request_with_cookie "")
    Example.provisioned =
    (inl (HTTPException 401
            "Not authenticated. Missing access token cookie." bearer),
     Example.provisioned) /\
  dict_lookup (auth_status Example.env (Example.request_with_cookie ""))
    "authenticated" = Some (JBool true).
Proof.
  apply (empty_cookie_is_missing_for_get_current_user Example.env
           (Example.request_with_cookie "") Example.provisioned).
  reflexivity.
Defined.

Lemma auth_status_holds_for_current_user_witness :
  dict_lookup (auth_status Example.env (Example.request_with_cookie "alice"))
    "authenticated" = Some (JBool true).
Proof.
  apply (auth_status_holds_for_current_user Example.env
           (Example.request_with_cookie "alice") Example.provisioned
           Example.alice_row
           (log (EvDbQuery (JStr "u-1"))
              (log (EvVerify "alice") Example.provisioned))).
  reflexivity.
Defined.

(** ** [callback] *)

Ltac break_match :=
  match goal with
  | |- context [match ?x with _ => _ end] =>
      lazymatch x with
      | context [match _ with _ => _ end] => fail
      | _ => destruct x
      end
  end.

Lemma callback_by_steps E code w :
  callback E code w =
    let w0 := log (EvTokenExchange (token_url (settings E))) w in
    match requests_post E (token_url (settings E))
            (token_data (settings E) code) with
    | inl e =>
        (inl (HTTPException 400
                ("Failed to exchange code for tokens: " ++ str_exn E e) None),
         w0)
    | inr tokens =>
        if negb (truthy (dict_get tokens "access_token")) ||
           negb (truthy (dict_get tokens "id_token"))
        then (inl (HTTPException 400 "Missing tokens in response" None), w0)
        else
          match id_token_claims E (dict_get tokens "id_token") w0 with
          | (inl e, w2) =>
              (inl (HTTPException 400
                      ("Failed to decode ID token: " ++ str_exn E e) None),
               w2)
          | (inr (sub, em, name), w2) =>
              match callback_provision E sub em name w2 with
              | (inl e, w3) => (inl e, w3)
              | (inr _, w3) =>
                  (inr (session_response E (dict_get tokens "access_token")),
                   w3)
              end
          end
    end.
Proof.
  unfold callback, id_token_claims, session_response.
  unfold bind, try_except, emit, lift, raise, ret. cbv zeta.
  repeat break_match; reflexivity.
Qed.






Lemma id_token_claims_ok E it w0 sub em name w2 :
  id_token_claims E it w0 = (inr (sub, em, name), w2) ->
  truthy sub = true /\ truthy em = true /\ exists s, em = JStr s.
Proof.
  unfold id_token_claims, bind, lift, raise, ret.
  destruct (decode_id_token_of E it w0) as [[e|user_info] w1];
    [discriminate|].
  destruct (dict_get user_info "email") as [| | |s| |] eqn:He; simpl;
    try discriminate.
  destruct (truthy (dict_get user_info "sub")) eqn:Hs; simpl;
    [|discriminate].
  destruct (String.eqb s "") eqn:Hn; simpl; [discriminate|].
  intros H. injection H as <- <- _ _.
  rewrite Hs. simpl. rewrite Hn. eauto.
Qed.


Lemma callback_provision_row E sub em name w u w' :
  callback_provision E sub em name w = (inr u, w') ->
  In u (users w') /\
  (py_eq (cognito_sub u) sub = true \/ cognito_sub u = sub).
Proof.
  unfold callback_provision, query_user_by_sub, bind, ret,
    add_commit_refresh.
  destruct (first_by_sub (users w) sub) as [u0|] eqn:Hq.
  - intros H. injection H as <- <-. unfold first_by_sub in Hq.
    apply find_some in Hq as [Hin Hp]. simpl. auto.
  - simpl. destruct (violated_constraint _ _); [discriminate|].
    intros H. injection H as <- <-. simpl. split; [|now right].
    apply in_or_app. right. now left.
Qed.



(** X17: a [callback] that succeeds answers with a 302 redirect to the
    dashboard that sets the session cookie to the access token the provider
    handed out, for 3600 seconds and with the configured attributes; by
    then the identity token has yielded a subject and an email, and a row
    for that subject is in the user table. *)
Theorem callback_success E code w resp w' :
  callback E code w = (inr resp, w') ->
  exists tokens sub em name w2 u,
    requests_post E (token_url (settings E)) (token_data (settings E) code) =
      inr tokens /\
    truthy (dict_get tokens "access_token") = true /\
    resp = session_response E (dict_get tokens "access_token") /\
    id_token_claims E (dict_get tokens "id_token")
      (log (EvTokenExchange (token_url (settings E))) w) =
      (inr (sub, em, name), w2) /\
    truthy sub = true /\ truthy em = true /\
    In u (users w') /\
    (py_eq (cognito_sub u) sub = true \/ cognito_sub u = sub).
Proof.
  rewrite callback_by_steps. cbv zeta.
  destruct (requests_post E _ _) as [x|tokens]; [discriminate|].
  destruct (truthy (dict_get tokens "access_token")) eqn:Hat; simpl;
    [|discriminate].
  destruct (negb (truthy (dict_get tokens "id_token"))); [discriminate|].
  destruct (id_token_claims E (dict_get tokens "id_token") _)
    as [[x|[[sub em] name]] w2] eqn:Hc; [discriminate|].
  destruct (callback_provision E sub em name w2) as [[x|u] w3] eqn:Hp;
    [discriminate|].
  intros H. injection H as <- <-.
  destruct (id_token_claims_ok _ _ _ _ _ _ _ Hc) as [Hs [He _]].
  destruct (callback_provision_row _ _ _ _ _ _ _ Hp) as [Hin Hsub].
  exists tokens, sub, em, name, w2, u. repeat split; auto.
Qed.

Lemma callback_success_witness :
  exists tokens sub em name w2 u,
    requests_post Example.env (token_url (settings Example.env))
      (token_data (settings Example.env) "abc123") = inr tokens /\
    truthy (dict_get tokens "access_token") = true /\
    session_response Example.env (JStr "alice") =
      session_response Example.env (dict_get tokens "access_token") /\
    id_token_claims Example.env (dict_get tokens "id_token")
      (log (EvTokenExchange (token_url (settings Example.env)))
         Example.fresh) = (inr (sub, em, name), w2) /\
    truthy sub = true /\ truthy em = true /\
    In u (users (snd (callback Example.env "abc123" Example.fresh))) /\
    (py_eq (cognito_sub u) sub = true \/ cognito_sub u = sub).
Proof.
  apply (callback_success Example.env "abc123" Example.fresh).
  reflexivity.
Defined.

Lemma split_head_app sep (a b : string) :
  ~ In sep (list_ascii_of_string a) ->
  split_head sep (a ++ String sep b) = a.
Proof.
  induction a as [|c a IH]; simpl.
  - intros _. now rewrite Ascii.eqb_refl.
  - intros H. destruct (Ascii.eqb_spec c sep) as [->|Hne].
    + exfalso. apply H. now left.
    + f_equal. apply IH. intros Hin. apply H. now right.
Qed.

Lemma decode_id_token_users E t w :
  users (snd (decode_id_token E t w)) = users w.
Proof. rewrite decode_id_token_world, get_jwks_keys_users. reflexivity. Qed.

(** X18: a first login, end to end.  The code is exchanged, the identity
    token is accepted with a subject and an email and no [name] claim, no
    row exists for the subject, the email or the generated id, and no other
    request interferes: [callback] inserts one row with that subject and
    email whose [full_name] is what stands before the [@] of the email, and
    answers with the redirect that sets the session cookie. *)
Theorem callback_first_login
    E code w tokens t user_info w2 s local domain :
  requests_post E (token_url (settings E)) (token_data (settings E) code) =
    inr tokens ->
  truthy (dict_get tokens "access_token") = true ->
  dict_get tokens "id_token" = JStr t ->
  t <> "" ->
  decode_id_token E t (log (EvTokenExchange (token_url (settings E))) w) =
    (inr user_info, w2) ->
  dict_get user_info "sub" = JStr s ->
  s <> "" ->
  dict_get user_info "email" = JStr (local ++ String "@" domain) ->
  ~ In "@"%char (list_ascii_of_string local) ->
  dict_lookup user_info "name" = None ->
  concurrent_commits E (users w) = users w ->
  first_by_sub (users w) (JStr s) = None ->
  existsb (fun v => py_eq (email v) (JStr (local ++ String "@" domain)))
    (users w) = false ->
  existsb (fun v => String.eqb (id v) (uuid4 E)) (users w) = false ->
  let u := new_user E (JStr s) (JStr (local ++ String "@" domain))
             (JStr local) in
  callback E code w =
    (inr (session_response E (dict_get tokens "access_token")),
     log (EvDbInsert u)
       (set_users (users w ++ [u])%list (log (EvDbQuery (JStr s)) w2))).
Proof.
  intros Hpost Hat Hit Ht Hdec Hsub Hs Hem Hlocal Hname Hseq Hq Hemail Hid u.
  assert (Hu2 : users w2 = users w).
  { replace w2 with (snd (decode_id_token E t
      (log (EvTokenExchange (token_url (settings E))) w)))
      by now rewrite Hdec.
    rewrite decode_id_token_users. reflexivity. }
  rewrite callback_by_steps. cbv zeta. rewrite Hpost, Hat, Hit. simpl.
  destruct (String.eqb_spec t "") as [|_]; [contradiction|]. simpl.
  unfold id_token_claims, decode_id_token_of, bind, lift, raise, ret.
  rewrite Hdec.
  rewrite Hsub, Hem. simpl.
  destruct (String.eqb_spec s "") as [|_]; [contradiction|]. simpl.
  replace (String.eqb (local ++ String "@" domain) "") with false
    by (destruct local; reflexivity).
  simpl. unfold dict_get_default. rewrite Hname.
  rewrite (split_head_app "@"%char local domain Hlocal).
  unfold callback_provision, query_user_by_sub, bind, ret,
    add_commit_refresh.
  simpl. rewrite Hu2, Hq. simpl. rewrite Hu2, Hseq.
  unfold violated_constraint. simpl.
  rewrite Hid, Hemail, (find_none_existsb _ _ Hq). reflexivity.
Qed.

Lemma callback_first_login_witness :
  callback Example.env "abc123" Example.fresh =
    (inr (session_response Example.env (JStr "alice")),
     log (EvDbInsert Example.new_alice)
       (set_users [Example.new_alice]
          (log (EvDbQuery (JStr "u-1"))
             (log (EvVerify "alice")
                (log (EvTokenExchange (token_url Example.config))
                   Example.fresh))))).
Proof.
  apply (callback_first_login Example.env "abc123" Example.fresh
           [("access_token", JStr "alice"); ("id_token", JStr "alice")]
           "alice"
           [("sub", JStr "u-1"); ("email", JStr "a@x.com"); ("exp", JNum 9000)]
           _ "u-1" "a" "x.com");
    try reflexivity; try discriminate.
  simpl. intros [H|[]]. discriminate.
Defined.

(** X19: an identity token without an [email] claim.  The default of the
    name lookup, [email.split("@")[0]], is evaluated first and raises on
    [None]; [callback] fails with HTTP 400 under that error's message,
    before its own required-claims test, and touches no user row. *)
Theorem callback_without_email E code w tokens t user_info w2 :
  requests_post E (token_url (settings E)) (token_data (settings E) code) =
    inr tokens ->
  truthy (dict_get tokens "access_token") = true ->
  dict_get tokens "id_token" = JStr t ->
  t <> "" ->
  decode_id_token E t (log (EvTokenExchange (token_url (settings E))) w) =
    (inr user_info, w2) ->
  dict_lookup user_info "email" = None ->
  callback E code w =
    (inl (HTTPException 400
            "Failed to decode ID token: 'NoneType' object has no attribute 'split'"
            None), w2).
Proof.
  intros Hpost Hat Hit Ht Hdec Hem.
  rewrite callback_by_steps. cbv zeta. rewrite Hpost, Hat, Hit. simpl.
  destruct (String.eqb_spec t "") as [|_]; [contradiction|]. simpl.
  assert (Hg : dict_get user_info "email" = JNull)
    by (unfold dict_get; now rewrite Hem).
  unfold id_token_claims, decode_id_token_of, bind, lift, raise, ret.
  rewrite Hdec, Hg.
  reflexivity.
Qed.

Lemma callback_without_email_witness :
  callback Example.env_sub_only "abc123" Example.fresh =
    (inl (HTTPException 400
            "Failed to decode ID token: 'NoneType' object has no attribute 'split'"
            None),
     log (EvVerify "alice")
       (log (EvTokenExchange (token_url Example.config)) Example.fresh)).
Proof.
  apply (callback_without_email Example.env_sub_only "abc123" Example.fresh
           [("access_token", JStr "alice"); ("id_token", JStr "alice")]
           "alice" [("sub", JStr "u-7")]);
    try reflexivity; discriminate.
Defined.

(** X20: an identity token with an email and no subject.  The HTTP 400
    "Missing required user information in ID token" is raised inside the
    [try] of step 3 and caught by its [except Exception]: [callback] fails
    with HTTP 400 "Failed to decode ID token: " followed by the text of
    that exception, and touches no user row. *)
Theorem callback_without_sub E code w tokens t user_info w2 e :
  requests_post E (token_url (settings E)) (token_data (settings E) code) =
    inr tokens ->
  truthy (dict_get tokens "access_token") = true ->
  dict_get tokens "id_token" = JStr t ->
  t <> "" ->
  decode_id_token E t (log (EvTokenExchange (token_url (settings E))) w) =
    (inr user_info, w2) ->
  dict_get user_info "email" = JStr e ->
  truthy (dict_get user_info "sub") = false ->
  callback E code w =
    (inl (HTTPException 400
            ("Failed to decode ID token: " ++
             str_HTTPException E 400
               "Missing required user information in ID token")
            None), w2).
Proof.
  intros Hpost Hat Hit Ht Hdec Hem Hsub.
  rewrite callback_by_steps. cbv zeta. rewrite Hpost, Hat, Hit. simpl.
  destruct (String.eqb_spec t "") as [|_]; [contradiction|]. simpl.
  unfold id_token_claims, decode_id_token_of, bind, lift, raise, ret.
  rewrite Hdec.
  rewrite Hem, Hsub. reflexivity.
Qed.

Lemma callback_without_sub_witness :
  callback Example.env_nosub "abc123" Example.fresh =
    (inl (HTTPException 400
            "Failed to decode ID token: 400: Missing required user information in ID token"
            None),
     log (EvVerify "nosub")
       (log (EvTokenExchange (token_url Example.config)) Example.fresh)).
Proof.
  apply (callback_without_sub Example.env_nosub "abc123" Example.fresh
           [("access_token", JStr "alice"); ("id_token", JStr "nosub")]
           "nosub" [("email", JStr "a@x.com"); ("exp", JNum 9000)] _
           "a@x.com");
    try reflexivity; discriminate.
Defined.



(** ** The proxy routes *)

Lemma dict_set_lookup_other d k v k' :
  k' <> k -> dict_lookup (dict_set d k v) k' = dict_lookup d k'.
Proof.
  intros Hne. unfold dict_set.
  assert (Hk : String.eqb k k' = false)
    by (apply String.eqb_neq; congruence).
  destruct (dict_mem d k).
  - induction d as [|[k0 v0] d IH]; simpl; [reflexivity|].
    destruct (String.eqb_spec k0 k) as [->|Hk0]; simpl.
    + rewrite Hk. exact IH.
    + destruct (String.eqb k0 k'); [reflexivity | exact IH].
  - induction d as [|[k0 v0] d IH]; simpl.
    + now rewrite Hk.
    + destruct (String.eqb k0 k'); [reflexivity | exact IH].
Qed.

Lemma dict_set_keys d k v :
  map fst (dict_set d k v) =
    if dict_mem d k then map fst d else (map fst d ++ [k])%list.
Proof.
  unfold dict_set. destruct (dict_mem d k).
  - induction d as [|[k0 v0] d IH]; simpl; [reflexivity|].
    rewrite IH. destruct (String.eqb_spec k0 k) as [->|]; reflexivity.
  - rewrite map_app. reflexivity.
Qed.

(** X22: [create_plan] on a JSON object.  Exactly one call goes to the
    generation service; its payload has the client's fields in their order
    and with their values, except [user_id], which holds the current user's
    id and is appended when the client sent none. *)
Theorem create_plan_forwards_client_fields E request u w d :
  request_json request = inr (JDict d) ->
  exists d',
    trace (snd (create_plan E request u w)) =
      (trace w ++
       [EvForward (GENERATION_SERVICE_URL (settings E) ++ "/create_plan")
          (JDict d')])%list /\
    dict_lookup d' "user_id" = Some (JStr (str_uuid (id u))) /\
    (forall k, k <> "user_id" -> dict_lookup d' k = dict_lookup d k) /\
    map fst d' =
      (if dict_mem d "user_id" then map fst d
       else (map fst d ++ ["user_id"])%list).
Proof.
  intros Hb. exists (dict_set d "user_id" (JStr (str_uuid (id u)))).
  split; [|split; [|split]].
  - unfold create_plan, request_body_or_empty, bind, lift. rewrite Hb. simpl.
    apply post_and_relay_trace.
  - apply dict_set_lookup.
  - intros k Hk. now apply dict_set_lookup_other.
  - apply dict_set_keys.
Qed.

Lemma create_plan_forwards_client_fields_witness :
  exists d',
    trace (snd (create_plan Example.env
                  {| cookies := [];
                     request_json :=
                       inr (JDict [("topic", JStr "rocq");
                                   ("user_id", JStr "someone-else")]) |}
                  Example.alice_row Example.fresh)) =
      (trace Example.fresh ++
       [EvForward
          (GENERATION_SERVICE_URL (settings Example.env) ++ "/create_plan")
          (JDict d')])%list /\
    dict_lookup d' "user_id" =
      Some (JStr (str_uuid (id Example.alice_row))) /\
    (forall k, k <> "user_id" ->
       dict_lookup d' k =
       dict_lookup [("topic", JStr "rocq"); ("user_id", JStr "someone-else")]
         k) /\
    map fst d' =
      (if dict_mem [("topic", JStr "rocq"); ("user_id", JStr "someone-else")]
            "user_id"
       then map fst [("topic", JStr "rocq"); ("user_id", JStr "someone-else")]
       else (map fst [("topic", JStr "rocq");
                      ("user_id", JStr "someone-else")] ++ ["user_id"])%list).
Proof.
  apply (create_plan_forwards_client_fields Example.env
           {| cookies := [];
              request_json :=
                inr (JDict [("topic", JStr "rocq");
                            ("user_id", JStr "someone-else")]) |}
           Example.alice_row Example.fresh).
  reflexivity.
Defined.

(** X23: [create_plan] and [chat] on a JSON body that is not an object (a
    list, a string, a number, [true], [null]): the assignment of [user_id]
    raises a [TypeError], which no handler catches, and nothing is sent
    downstream. *)
Theorem create_plan_rejects_non_object_body E request u w body :
  request_json request = inr body ->
  (forall d, body <> JDict d) ->
  exists m,
    create_plan E request u w = (inl (PyError "TypeError" m), w) /\
    chat E request u w = (inl (PyError "TypeError" m), w).
Proof.
  intros Hb Hd.
  unfold create_plan, chat, request_body_or_empty, bind, lift. rewrite Hb.
  destruct body; simpl; try (eexists; split; reflexivity).
  exfalso. eapply Hd. reflexivity.
Qed.

Lemma create_plan_rejects_non_object_body_witness :
  exists m,
    create_plan Example.env
      {| cookies := []; request_json := inr (JList [JNum 1; JNum 2]) |}
      Example.alice_row Example.fresh =
      (inl (PyError "TypeError" m), Example.fresh) /\
    chat Example.env
      {| cookies := []; request_json := inr (JList [JNum 1; JNum 2]) |}
      Example.alice_row Example.fresh =
      (inl (PyError "TypeError" m), Example.fresh).
Proof.
  apply (create_plan_rejects_non_object_body Example.env
           {| cookies := []; request_json := inr (JList [JNum 1; JNum 2]) |}
           Example.alice_row Example.fresh (JList [JNum 1; JNum 2])).
  - reflexivity.
  - discriminate.
Defined.

(** X24: [create_plan] and [chat] on a body that cannot be read as JSON: the
    failure is swallowed and the object that goes downstream holds
    [user_id] and nothing else. *)
Theorem create_plan_unreadable_body_is_empty E request u w e :
  request_json request = inl e ->
  trace (snd (create_plan E request u w)) =
    (trace w ++
     [EvForward (GENERATION_SERVICE_URL (settings E) ++ "/create_plan")
        (JDict [("user_id", JStr (str_uuid (id u)))])])%list /\
  trace (snd (chat E request u w)) =
    (trace w ++
     [EvForward (GENERATION_SERVICE_URL (settings E) ++ "/learn/generation")
        (JDict [("user_id", JStr (str_uuid (id u)))])])%list.
Proof.
  intros Hb.
  unfold create_plan, chat, request_body_or_empty, bind, lift. rewrite Hb.
  simpl. split; apply post_and_relay_trace.
Qed.

Lemma create_plan_unreadable_body_is_empty_witness :
  trace (snd (create_plan Example.env
                {| cookies := [];
                   request_json :=
                     inl (PyError "JSONDecodeError" "Expecting value") |}
                Example.alice_row Example.fresh)) =
    (trace Example.fresh ++
     [EvForward
        (GENERATION_SERVICE_URL (settings Example.env) ++ "/create_plan")
        (JDict [("user_id", JStr (str_uuid (id Example.alice_row)))])])%list /\
  trace (snd (chat Example.env
                {| cookies := [];
                   request_json :=
                     inl (PyError "JSONDecodeError" "Expecting value") |}
                Example.alice_row Example.fresh)) =
    (trace Example.fresh ++
     [EvForward
        (GENERATION_SERVICE_URL (settings Example.env) ++ "/learn/generation")
        (JDict [("user_id", JStr (str_uuid (id Example.alice_row)))])])%list.
Proof.
  apply (create_plan_unreadable_body_is_empty Example.env
           {| cookies := [];
              request_json :=
                inl (PyError "JSONDecodeError" "Expecting value") |}
           Example.alice_row Example.fresh
           (PyError "JSONDecodeError" "Expecting value")).
  reflexivity.
Defined.



Lemma post_and_relay_world E url body p q w :
  snd (post_and_relay E url body p q w) = log (EvForward url body) w.
Proof.
  unfold post_and_relay, try_except, bind, emit, lift, raise.
  destruct (httpx_post_json E url body) as [e|r]; [destruct e|]; reflexivity.
Qed.

(** X26: a protected call, end to end.  When [get_current_user] accepts the
    request and the body is a JSON object, [create_plan_route] makes exactly
    one call downstream, after the reads of the authentication; the call
    carries the body with the accepted user's id as [user_id], and the user
    table is left as it was. *)
Theorem create_plan_route_forwards_once E request w u w1 d :
  get_current_user E request w = (inr u, w1) ->
  request_json request = inr (JDict d) ->
  users (snd (create_plan_route E request w)) = users w /\
  exists evs,
    forallb is_read_event evs = true /\
    trace (snd (create_plan_route E request w)) =
      (trace w ++ evs ++
       [EvForward (GENERATION_SERVICE_URL (settings E) ++ "/create_plan")
          (JDict (dict_set d "user_id" (JStr (str_uuid (id u)))))])%list.
Proof.
  intros Hg Hb.
  destruct (get_current_user_frame E request w) as [Hu [evs [Ht Hr]]].
  rewrite Hg in Hu, Ht. simpl in Hu, Ht.
  unfold create_plan_route, bind. rewrite Hg.
  unfold create_plan, request_body_or_empty, bind, lift. rewrite Hb. simpl.
  rewrite post_and_relay_world. simpl. split; [exact Hu|].
  exists evs. split; [exact Hr|]. rewrite Ht. now rewrite app_assoc.
Qed.

Lemma create_plan_route_forwards_once_witness :
  users (snd (create_plan_route Example.env
                (Example.request_with_cookie "alice") Example.provisioned)) =
    users Example.provisioned /\
  exists evs,
    forallb is_read_event evs = true /\
    trace (snd (create_plan_route Example.env
                  (Example.request_with_cookie "alice")
                  Example.provisioned)) =
      (trace Example.provisioned ++ evs ++
       [EvForward
          (GENERATION_SERVICE_URL (settings Example.env) ++ "/create_plan")
          (JDict (dict_set [] "user_id"
                    (JStr (str_uuid (id Example.alice_row)))))])%list.
Proof.
  apply (create_plan_route_forwards_once Example.env
           (Example.request_with_cookie "alice") Example.provisioned
           Example.alice_row
           (log (EvDbQuery (JStr "u-1"))
              (log (EvVerify "alice") Example.provisioned)) []);
    reflexivity.
Defined.

(** X27: when [get_current_user] rejects the request, for whatever reason,
    [create_plan_route] and [chat_route] fail with that same exception and
    the handler does not run: what was recorded are the reads of the
    authentication, and nothing went downstream. *)
Theorem routes_stop_at_failed_authentication E request w e w1 :
  get_current_user E request w = (inl e, w1) ->
  create_plan_route E request w = (inl e, w1) /\
  chat_route E request w = (inl e, w1) /\
  users w1 = users w /\
  exists evs, trace w1 = (trace w ++ evs)%list /\
              forallb is_read_event evs = true.
Proof.
  intros Hg.
  destruct (get_current_user_frame E request w) as [Hu Ht].
  rewrite Hg in Hu, Ht. simpl in Hu, Ht.
  unfold create_plan_route, chat_route, bind. rewrite Hg. auto.
Qed.

Lemma routes_stop_at_failed_authentication_witness :
  create_plan_route Example.env (Example.request_with_cookie "late-k1")
    Example.provisioned =
    (inl (HTTPException 401 "Invalid token: Signature has expired." None),
     log (EvVerify "late-k1") Example.provisioned) /\
  chat_route Example.env (Example.request_with_cookie "late-k1")
    Example.provisioned =
    (inl (HTTPException 401 "Invalid token: Signature has expired." None),
     log (EvVerify "late-k1") Example.provisioned) /\
  users (log (EvVerify "late-k1") Example.provisioned) =
    users Example.provisioned /\
  exists evs,
    trace (log (EvVerify "late-k1") Example.provisioned) =
      (trace Example.provisioned ++ evs)%list /\
    forallb is_read_event evs = true.
Proof.
  apply (routes_stop_at_failed_authentication Example.env
           (Example.request_with_cookie "late-k1") Example.provisioned).
  reflexivity.
Defined.

(** X28: [upload_file].  Once the file has been read, exactly one multipart
    call goes to the RAG service; its form holds [user_id], the current
    user's id, and [metadata] only when the client sent a non-empty one;
    the outcome is the service's answer, its error status, or 503.  A file
    that cannot be read raises before anything is sent. *)
Theorem upload_file_form E post file metadata u w :
  let url := RAG_SERVICE_URL (settings E) ++ "/upload-and-plan" in
  let data :=
    ("user_id", str_uuid (id u)) ::
    match metadata with
    | Some m => if String.eqb m "" then [] else [("metadata", m)]
    | None => []
    end in
  match file_read file with
  | inl e => upload_file E post file metadata u w = (inl e, w)
  | inr content =>
      upload_file E post file metadata u w =
        (match post url [("file", (filename file, content, content_type file))]
                 data with
         | inr r => inr r
         | inl (HTTPStatusError s text) =>
             inl (HTTPException s ("RAG service error: " ++ text) None)
         | inl e =>
             inl (HTTPException 503
                    ("Failed to communicate with RAG service: " ++
                     str_exn E e) None)
         end,
         log (EvForward url (form_fields data)) w) /\
      carries_user_id (id u) (form_fields data)
  end.
Proof.
  cbv zeta. unfold upload_file, bind, try_except, emit, lift, raise.
  destruct (file_read file) as [e|content]; [reflexivity|].
  split.
  - destruct metadata as [m|]; [destruct (String.eqb m "")|]; simpl;
      match goal with
      | |- context [post ?a ?b ?c] =>
          destruct (post a b c) as [x|r]; [destruct x|]; reflexivity
      end.
  - eexists. split; [reflexivity|]. split.
    + reflexivity.
    + intros v Hin. simpl in Hin. destruct Hin as [H|Hin].
      * now injection H as <-.
      * destruct metadata as [m|]; [destruct (String.eqb m "")|];
          simpl in Hin; try tauto.
        destruct Hin as [H|[]]. discriminate.
Qed.

(** ** Expiry and signature *)





(** ** A uniqueness violation in [callback] *)

(** C5, as the code has it: when the code exchange and the identity token
    went through, the subject has no row at lookup time and the insert of
    the new row violates a uniqueness constraint, [callback] itself ends
    with that integrity error: no response is built, so no redirect and no
    session cookie; the user table is queried once, not read again, and no
    row is inserted. *)
Theorem callback_surfaces_violation E code w tokens t user_info w2 e c :
  requests_post E (token_url (settings E)) (token_data (settings E) code) =
    inr tokens ->
  truthy (dict_get tokens "access_token") = true ->
  dict_get tokens "id_token" = JStr t ->
  t <> "" ->
  decode_id_token E t (log (EvTokenExchange (token_url (settings E))) w) =
    (inr user_info, w2) ->
  truthy (dict_get user_info "sub") = true ->
  dict_get user_info "email" = JStr e ->
  e <> "" ->
  first_by_sub (users w) (dict_get user_info "sub") = None ->
  violated_constraint (concurrent_commits E (users w))
    (new_user E (dict_get user_info "sub") (JStr e)
       (dict_get_default user_info "name" (JStr (split_head "@"%char e)))) =
    Some c ->
  callback E code w =
    (inl (IntegrityError c),
     set_users (concurrent_commits E (users w))
       (log (EvDbQuery (dict_get user_info "sub")) w2)) /\
  trace (snd (callback E code w)) =
    (trace w2 ++ [EvDbQuery (dict_get user_info "sub")])%list.
Proof.
  intros Hpost Hat Hit Ht Hdec Hsub Hem He Hq Hv.
  assert (Hu2 : users w2 = users w).
  { replace w2 with (snd (decode_id_token E t
      (log (EvTokenExchange (token_url (settings E))) w)))
      by now rewrite Hdec.
    rewrite decode_id_token_users. reflexivity. }
  assert (Hcb : callback E code w =
    (inl (IntegrityError c),
     set_users (concurrent_commits E (users w))
       (log (EvDbQuery (dict_get user_info "sub")) w2))).
  { rewrite callback_by_steps. cbv zeta. rewrite Hpost, Hat, Hit. simpl.
    destruct (String.eqb_spec t "") as [|_]; [contradiction|]. simpl.
    unfold id_token_claims, decode_id_token_of, bind, lift, raise, ret.
    rewrite Hdec. rewrite Hem, Hsub. simpl.
    destruct (String.eqb_spec e "") as [|_]; [contradiction|]. simpl.
    rewrite <- Hu2 in Hq, Hv.
    rewrite (callback_provision_surfaces_violation E _ _ _ w2 c Hq Hv).
    rewrite Hu2. reflexivity. }
  rewrite Hcb. split; reflexivity.
Qed.

Lemma callback_surfaces_violation_witness :
  callback Example.env_racing "abc123" Example.fresh =
    (inl (IntegrityError "ix_users_email"),
     set_users [Example.alice_row]
       (log (EvDbQuery (JStr "u-1"))
          (log (EvVerify "alice")
             (log (EvTokenExchange (token_url Example.config))
                Example.fresh)))) /\
  trace (snd (callback Example.env_racing "abc123" Example.fresh)) =
    (trace (log (EvVerify "alice")
              (log (EvTokenExchange (token_url Example.config))
                 Example.fresh)) ++ [EvDbQuery (JStr "u-1")])%list.
Proof.
  apply (callback_surfaces_violation Example.env_racing "abc123"
           Example.fresh
           [("access_token", JStr "alice"); ("id_token", JStr "alice")]
           "alice"
           [("sub", JStr "u-1"); ("email", JStr "a@x.com"); ("exp", JNum 9000)]
           _ "a@x.com" "ix_users_email");
    try reflexivity; discriminate.
Defined.

(** An identity token that is no string goes through [decode_id_token] like
    any other: the key set is fetched and cached before the library rejects
    the value, and [callback] answers HTTP 400. *)
Example callback_numeric_id_token :
  callback Example.env_numeric_id_token "abc123" Example.stale =
    (inl (HTTPException 400
            "Failed to decode ID token: 401: Invalid ID token: Error decoding token headers."
            None),
     set_cache Example.jwks (utcnow Example.env)
       (log (EvJwksFetch (jwks_url Example.config))
          (log (EvVerifyValue (JNum 42))
             (log (EvTokenExchange (token_url Example.config))
                Example.stale)))).
Proof. reflexivity. Qed.
